(** * autotrain-advanced: the percent evaluation callback and the LLM split

    A shallow embedding of
    - [src/autotrain/trainers/clm/callbacks.py], class
      [EvaluateOnEveryPercentCallback] ([__init__] and [on_step_begin]);
    - [src/autotrain/preprocessor/text.py], the [split], [__post_init__] and
      [prepare_columns] methods of the preprocessors.

    Python integers are [Z]; [//] is floor division, which is [Z.div] away
    from a zero divisor, where Python raises [ZeroDivisionError].  Python sets
    of integers are [gset Z].  Objects that are mutated in place (the callback
    instance, the [TrainerControl]) live in a heap and are passed by
    reference. *)

From Stdlib Require Import ZArith Lia.
From stdpp Require Import base gmap sets list strings.

Local Open Scope Z_scope.

(** ** Heap, exceptions and the monad of the callbacks *)

Module Callbacks.

Definition loc := positive.

(** [transformers.TrainerState]: the two fields [on_step_begin] reads. *)
Record TrainerState := mkState {
  global_step : Z;
  max_steps : Z
}.

(** [transformers.TrainerControl], a dataclass of five flags. *)
Record TrainerControl := mkControl {
  should_training_stop : bool;
  should_epoch_stop : bool;
  should_save : bool;
  should_evaluate : bool;
  should_log : bool
}.

(** The instance dictionary of an [EvaluateOnEveryPercentCallback].  The only
    attribute the class ever reads or writes is [steps_done]; [None] means the
    instance has no such attribute. *)
Record Instance := mkInstance {
  steps_done : option (gset Z)
}.

Record heap := mkHeap {
  callbacks : gmap loc Instance;
  controls : gmap loc TrainerControl
}.

Inductive exn :=
  | ZeroDivisionError
  | AttributeError (attr : string).

(** Outcome of running a method on a heap: a value and the heap it leaves, an
    exception and the heap at the point it was raised, or [Stuck] when a
    reference is not allocated (which no Python program can observe). *)
Inductive result (A : Type) :=
  | Ok (a : A) (h : heap)
  | Raise (e : exn) (h : heap)
  | Stuck.
Arguments Ok {A} a h.
Arguments Raise {A} e h.
Arguments Stuck {A}.

Definition M (A : Type) := heap -> result A.

Definition ret {A} (a : A) : M A := fun h => Ok a h.

Definition bind {A B} (m : M A) (k : A -> M B) : M B :=
  fun h =>
    match m h with
    | Ok a h' => k a h'
    | Raise e h' => Raise e h'
    | Stuck => Stuck
    end.

Definition raise {A} (e : exn) : M A := fun h => Raise e h.

Notation "'let!' x ':=' m 'in' k" := (bind m (fun x => k))
  (at level 10, x name, m at level 100, k at level 200).
Notation "'run!' m 'in' k" := (bind m (fun _ => k))
  (at level 10, m at level 100, k at level 200).

(** [a // b] *)
Definition floordiv (a b : Z) : M Z :=
  if b =? 0 then raise ZeroDivisionError else ret (a / b).

(** [int(x)] of an integer. *)
Definition int (x : Z) : Z := x.

(** [set([x])] *)
Definition set_of (l : list Z) : gset Z := list_to_set l.

(** [self.steps_done] *)
Definition get_steps_done (self : loc) : M (gset Z) :=
  fun h =>
    match callbacks h !! self with
    | None => Stuck
    | Some inst =>
        match steps_done inst with
        | None => Raise (AttributeError "steps_done") h
        | Some s => Ok s h
        end
    end.

(** [self.steps_done.add(x)]: the set object held by the attribute is updated
    in place. *)
Definition steps_done_add (self : loc) (x : Z) : M unit :=
  let! s := get_steps_done self in
  fun h => Ok tt (mkHeap (<[self := mkInstance (Some ({[x]} ∪ s))]> (callbacks h))
                         (controls h)).

(** The control [c] with its field [should_evaluate] overwritten. *)
Definition with_should_evaluate (b : bool) (c : TrainerControl) : TrainerControl :=
  mkControl (should_training_stop c) (should_epoch_stop c) (should_save c)
            b (should_log c).

(** [control.should_evaluate = b] *)
Definition set_should_evaluate (control : loc) (b : bool) : M unit :=
  fun h =>
    match controls h !! control with
    | None => Stuck
    | Some c =>
        Ok tt (mkHeap (callbacks h)
                      (<[control := with_should_evaluate b c]> (controls h)))
    end.

(** ** [EvaluateOnEveryPercentCallback] *)

(** [__init__]: [super().__init__()] does nothing, and [steps_done] is a local
    variable of the method: no attribute of [self] is assigned. *)
Definition __init__ (self : loc) : M unit :=
  let steps_done := set_of [0] in
  ret tt.

(** [EvaluateOnEveryPercentCallback()]: a new instance with an empty
    dictionary, initialised by [__init__]. *)
Definition construct : M loc :=
  fun h =>
    let self := fresh (dom (callbacks h)) in
    (run! __init__ self in ret self)
      (mkHeap (<[self := mkInstance None]> (callbacks h)) (controls h)).

(** The percent of lines 50-52: [int(100*(curr_step//max_steps))]. *)
Definition percent_of (state : TrainerState) : M Z :=
  let curr_step := global_step state in
  let max_steps := max_steps state in
  let! q := floordiv curr_step max_steps in
  ret (int (100 * q)).

(** [on_step_begin(self, args, state, control)]; [args] and the keyword
    arguments are not used. *)
Definition on_step_begin (self : loc) (state : TrainerState) (control : loc)
  : M loc :=
  let! percent := percent_of state in
  let! done_ := get_steps_done self in
  if negb (bool_decide (percent ∈ done_)) then
    run! steps_done_add self percent in
    run! set_should_evaluate control true in
    ret control
  else
    ret control.

(** The caller.  The trainer's callback handler clears [should_log],
    [should_evaluate] and [should_save] on the control, dispatches
    [on_step_begin], and the training loop then reads [should_evaluate] on the
    control it got back: that flag is the decision of the step. *)
Definition cleared (c : TrainerControl) : TrainerControl :=
  mkControl (should_training_stop c) (should_epoch_stop c) false false false.

Definition new_step (control : loc) : M unit :=
  fun h =>
    match controls h !! control with
    | None => Stuck
    | Some c => Ok tt (mkHeap (callbacks h) (<[control := cleared c]> (controls h)))
    end.

Definition get_should_evaluate (control : loc) : M bool :=
  fun h =>
    match controls h !! control with
    | None => Stuck
    | Some c => Ok (should_evaluate c) h
    end.

Definition step_decision (self control : loc) (current_step total_steps : Z)
  : M bool :=
  run! new_step control in
  let! returned := on_step_begin self (mkState current_step total_steps) control in
  get_should_evaluate returned.

(** One decision per (current_step, total_steps) of the list, in order, on the
    same callback and control. *)
Fixpoint step_decisions (self control : loc) (calls : list (Z * Z))
  : M (list bool) :=
  match calls with
  | [] => ret []
  | (current_step, total_steps) :: rest =>
      let! b := step_decision self control current_step total_steps in
      let! bs := step_decisions self control rest in
      ret (b :: bs)
  end.

(** The attribute [steps_done] of the instance at [self], when the instance
    is allocated. *)
Definition milestones (self : loc) (h : heap) : option (option (gset Z)) :=
  steps_done <$> (callbacks h !! self).

(** The percent the spec describes: [floor(100 * current_step / total_steps)]
    clamped to [0,100].  It is used only to compare with [percent_of]. *)
Definition spec_percent (current_step total_steps : Z) : Z :=
  Z.max 0 (Z.min 100 (100 * current_step / total_steps)).

(** The percents of a list of calls, as the code computes them. *)
Definition percents (calls : list (Z * Z)) : list Z :=
  map (fun call => int (100 * (call.1 / call.2))) calls.

(** Sample heaps: a callback at reference 1 whose [steps_done] holds [{0}]
    (as a caller could install it) and a cleared control at reference 1. *)
Definition control0 : TrainerControl := mkControl false false false false false.

Definition heap_seeded : heap :=
  mkHeap {[ 1%positive := mkInstance (Some {[ 0 ]}) ]} {[ 1%positive := control0 ]}.

(** A heap with a control and no callback yet. *)
Definition heap_empty : heap := mkHeap ∅ {[ 1%positive := control0 ]}.

(** The calls [(0,1), (1,1), ..., (n-1,1)]. *)
Definition overrun (n : nat) : list (Z * Z) :=
  map (fun k => (Z.of_nat k, 1)) (seq 0 n).

End Callbacks.

(** ** The preprocessors of [text.py]: [split] *)

(** pandas and scikit-learn are external.  A [DataFrame] is a reference to a
    frame: equal references are the same object. *)
Class Pandas := {
  DataFrame : Type;
  Series : Type;
  float : Type;
  (** [df[column]] *)
  getitem : DataFrame -> string -> Series;
  (** [train_test_split(df, test_size=, random_state=, stratify=)] *)
  train_test_split :
    DataFrame -> option float -> option Z -> option Series -> DataFrame * DataFrame;
  (** [df.reset_index(drop=True)] *)
  reset_index : DataFrame -> DataFrame
}.

Module TextBinaryClassificationPreprocessor.
Section WithPandas.
Context `{Pandas}.

Record t := mk {
  train_data : DataFrame;
  text_column : string;
  label_column : string;
  username : string;
  project_name : string;
  token : string;
  valid_data : option DataFrame;
  test_size : option float;
  seed : option Z;
  convert_to_class_label : option bool
}.

Definition split (self : t) : DataFrame * DataFrame :=
  match valid_data self with
  | Some valid => (train_data self, valid)
  | None =>
      let '(train_df, valid_df) :=
        train_test_split (train_data self) (test_size self) (seed self)
                         (Some (getitem (train_data self) (label_column self))) in
      let train_df := reset_index train_df in
      let valid_df := reset_index valid_df in
      (train_df, valid_df)
  end.
End WithPandas.
End TextBinaryClassificationPreprocessor.

(** [class TextMultiClassClassificationPreprocessor(TextBinaryClassificationPreprocessor): pass] *)
Module TextMultiClassClassificationPreprocessor.
Section WithPandas.
Context `{Pandas}.
Definition t := TextBinaryClassificationPreprocessor.t.
Definition split (self : t) : DataFrame * DataFrame :=
  TextBinaryClassificationPreprocessor.split self.
End WithPandas.
End TextMultiClassClassificationPreprocessor.

(** A subclass of the binary preprocessor that overrides [split]: no
    [stratify] argument. *)
Module TextSingleColumnRegressionPreprocessor.
Section WithPandas.
Context `{Pandas}.
Import TextBinaryClassificationPreprocessor.
Definition t := TextBinaryClassificationPreprocessor.t.
Definition split (self : t) : DataFrame * DataFrame :=
  match valid_data self with
  | Some valid => (train_data self, valid)
  | None =>
      let '(train_df, valid_df) :=
        train_test_split (train_data self) (test_size self) (seed self) None in
      let train_df := reset_index train_df in
      let valid_df := reset_index valid_df in
      (train_df, valid_df)
  end.
End WithPandas.
End TextSingleColumnRegressionPreprocessor.

Module LLMPreprocessor.
Section WithPandas.
Context `{Pandas}.

Record t := mk {
  train_data : DataFrame;
  username : string;
  project_name : string;
  token : string;
  valid_data : option DataFrame;
  test_size : option float;
  seed : option Z;
  text_column : option string;
  prompt_column : option string;
  rejected_text_column : option string
}.

Definition split (self : t) : DataFrame * DataFrame :=
  match valid_data self with
  | Some valid => (train_data self, valid)
  | None => (train_data self, train_data self)
  end.
End WithPandas.
End LLMPreprocessor.

Module Seq2SeqPreprocessor.
Section WithPandas.
Context `{Pandas}.

Record t := mk {
  train_data : DataFrame;
  text_column : string;
  label_column : string;
  username : string;
  project_name : string;
  token : string;
  valid_data : option DataFrame;
  test_size : option float;
  seed : option Z
}.

Definition split (self : t) : DataFrame * DataFrame :=
  match valid_data self with
  | Some valid => (train_data self, valid)
  | None =>
      let '(train_df, valid_df) :=
        train_test_split (train_data self) (test_size self) (seed self)
                         (Some (getitem (train_data self) (label_column self))) in
      let train_df := reset_index train_df in
      let valid_df := reset_index valid_df in
      (train_df, valid_df)
  end.
End WithPandas.
End Seq2SeqPreprocessor.

(** A small instance of the external interface, to run [split] on: frames
    are numbered, a split of frame [d] makes frames [2d+1] and [2d+2], and
    [reset_index] makes frame [d+100]. *)
Definition toy_pandas : Pandas := {|
  DataFrame := nat;
  Series := nat * string;
  float := nat;
  getitem := fun d column => (d, column);
  train_test_split := fun d _ _ _ => (2 * d + 1, 2 * d + 2)%nat;
  reset_index := fun d => (d + 100)%nat
|}.

(** Preprocessors over frame 7, none with validation data. *)
Definition llm_sample : @LLMPreprocessor.t toy_pandas :=
  @LLMPreprocessor.mk toy_pandas 7%nat "user" "project" "token" None
                      (Some 20%nat) (Some 42) (Some "text") (Some "text")
                      (Some "text").

Definition binary_sample : @TextBinaryClassificationPreprocessor.t toy_pandas :=
  @TextBinaryClassificationPreprocessor.mk toy_pandas
    7%nat "text" "label" "user" "project" "token" None (Some 20%nat) (Some 42)
    (Some false).

Definition seq2seq_sample : @Seq2SeqPreprocessor.t toy_pandas :=
  @Seq2SeqPreprocessor.mk toy_pandas
    7%nat "text" "label" "user" "project" "token" None (Some 20%nat) (Some 42).

(** ** The preprocessors of [text.py]: [__post_init__] and [prepare_columns] *)

(** The frames behind the [DataFrame] references.  A frame is its columns in
    order, each a label and a [Series]; the store maps the references that
    are alive to their frames.  [prepare_columns] assigns columns in place,
    so the frames are read and written through the store. *)
Module Frames.
Section Store.
Context `{Pandas} `{Countable DataFrame} `{!Infinite DataFrame}.

Definition frame := list (string * Series).

Inductive exn :=
  | ValueError (msg : string)
  | KeyError (labels : list (option string)).

(** A value and the store left, an exception and the store at the point it
    was raised, or [NoFrame] for a reference that is not in the store (which
    no Python program can hold). *)
Inductive result (A : Type) :=
  | Returns (a : A) (st : gmap DataFrame frame)
  | Raises (e : exn) (st : gmap DataFrame frame)
  | NoFrame.
Arguments Returns {A} a st.
Arguments Raises {A} e st.
Arguments NoFrame {A}.

Definition P (A : Type) := gmap DataFrame frame -> result A.

Definition unit_ {A} (a : A) : P A := fun st => Returns a st.

Definition then_ {A B} (m : P A) (k : A -> P B) : P B :=
  fun st =>
    match m st with
    | Returns a st' => k a st'
    | Raises e st' => Raises e st'
    | NoFrame => NoFrame
    end.

Definition throw {A} (e : exn) : P A := fun st => Raises e st.

Definition read (df : DataFrame) : P frame :=
  fun st => match st !! df with Some fr => Returns fr st | None => NoFrame end.

(** The labels of a frame, [df.columns]. *)
Definition labels (fr : frame) : list string := fr.*1.

(** The first column with the label. *)
Fixpoint frame_get (fr : frame) (column : string) : option Series :=
  match fr with
  | [] => None
  | (c, s) :: rest => if decide (c = column) then Some s else frame_get rest column
  end.

(** Assignment of a column: an existing label keeps its place and gets the
    new values, a new label is appended. *)
Fixpoint frame_set (fr : frame) (column : string) (values : Series) : frame :=
  match fr with
  | [] => [(column, values)]
  | (c, s) :: rest =>
      if decide (c = column) then (c, values) :: rest
      else (c, s) :: frame_set rest column values
  end.

(** [column in fr.columns]; [None] is the label of no column. *)
Definition has_column (fr : frame) (column : option string) : bool :=
  match column with
  | Some c => bool_decide (c ∈ labels fr)
  | None => false
  end.

(** [column in df.columns] *)
Definition column_in (column : option string) (df : DataFrame) : P bool :=
  fun st =>
    match st !! df with
    | None => NoFrame
    | Some fr => Returns (has_column fr column) st
    end.

(** [df[column]]: [KeyError] for a label that is not a column. *)
Definition getitem_ (df : DataFrame) (column : option string) : P Series :=
  fun st =>
    match st !! df with
    | None => NoFrame
    | Some fr =>
        match column with
        | None => Raises (KeyError [None]) st
        | Some c =>
            match frame_get fr c with
            | Some s => Returns s st
            | None => Raises (KeyError [Some c]) st
            end
        end
    end.

(** [df.loc[:, column] = values]: the frame behind [df] is updated in place. *)
Definition loc_setitem (df : DataFrame) (column : string) (values : Series)
  : P unit :=
  fun st =>
    match st !! df with
    | None => NoFrame
    | Some fr => Returns tt (<[df := frame_set fr column values]> st)
    end.

(** [df.drop(columns=columns)]: a new frame without the columns; [KeyError]
    with the labels that are not columns of [df], which is left as it is. *)
Definition drop (df : DataFrame) (columns : list (option string)) : P DataFrame :=
  fun st =>
    match st !! df with
    | None => NoFrame
    | Some fr =>
        let missing := filter (fun c => negb (has_column fr c)) columns in
        match missing with
        | [] =>
            let new := fresh (dom st) in
            Returns new
              (<[new := filter (fun col => Some col.1 ∉ columns) fr]> st)
        | _ :: _ => Raises (KeyError missing) st
        end
    end.

(** The frames a preprocessor was given: the training frame and, when there
    is one, the validation frame; [None] when a reference is not in the
    store. *)
Definition supplied (train_data : DataFrame) (valid_data : option DataFrame)
    (st : gmap DataFrame frame) : option (list frame) :=
  match st !! train_data with
  | None => None
  | Some train =>
      match valid_data with
      | None => Some [train]
      | Some valid =>
          match st !! valid with
          | None => None
          | Some valid_frame => Some [train; valid_frame]
          end
      end
  end.

(** [str(x)] of an optional string, as an f-string prints it. *)
Definition str_ (x : option string) : string := default "None" x.

End Store.

Arguments Returns {_ _ _ A} a st.
Arguments Raises {_ _ _ A} e st.
Arguments NoFrame {_ _ _ A}.

Notation "'do!' x ':=' m 'in' k" := (then_ m (fun x => k))
  (at level 10, x name, m at level 100, k at level 200).

End Frames.

Definition RESERVED_COLUMNS : list string := ["autotrain_text"; "autotrain_label"].

Definition LLM_RESERVED_COLUMNS : list string :=
  ["autotrain_prompt"; "autotrain_context"; "autotrain_rejected_text";
   "autotrain_prompt_start"].

(** The loop that ends every [__post_init__]:
    [for column in reserved: if column in train.columns: raise ...;
     if valid is not None: if column in valid.columns: raise ...]. *)
Module ReservedColumns.
Section WithPandas.
Context `{Pandas} `{Countable DataFrame} `{!Infinite DataFrame}.
Import Frames.

Fixpoint check (train_data : DataFrame) (valid_data : option DataFrame)
    (reserved : list string) : P unit :=
  match reserved with
  | [] => unit_ tt
  | column :: rest =>
      do! in_train := column_in (Some column) train_data in
      if in_train then
        throw (ValueError (column ++ " is a reserved column name"))
      else
        do! in_valid :=
          match valid_data with
          | Some valid => column_in (Some column) valid
          | None => unit_ false
          end in
        if in_valid then
          throw (ValueError (column ++ " is a reserved column name"))
        else check train_data valid_data rest
  end.

End WithPandas.
End ReservedColumns.

(** [TextBinaryClassificationPreprocessor]: [__post_init__] and
    [prepare_columns].  The multi-class and the regression preprocessors
    inherit both. *)
Module Binary.
Section WithPandas.
Context `{Pandas} `{Countable DataFrame} `{!Infinite DataFrame}.
Import Frames TextBinaryClassificationPreprocessor.

Definition __post_init__ (self : t) : P unit :=
  do! found := column_in (Some (text_column self)) (train_data self) in
  if negb found then
    throw (ValueError (text_column self ++ " not in train data"))
  else
  do! found := column_in (Some (label_column self)) (train_data self) in
  if negb found then
    throw (ValueError (label_column self ++ " not in train data"))
  else
  do! _ :=
    match valid_data self with
    | Some valid =>
        do! found := column_in (Some (text_column self)) valid in
        if negb found then
          throw (ValueError (text_column self ++ " not in valid data"))
        else
        do! found := column_in (Some (label_column self)) valid in
        if negb found then
          throw (ValueError (label_column self ++ " not in valid data"))
        else unit_ tt
    | None => unit_ tt
    end in
  ReservedColumns.check (train_data self) (valid_data self) RESERVED_COLUMNS.

Definition prepare_columns (self : t) (train_df valid_df : DataFrame)
  : P (DataFrame * DataFrame) :=
  do! text := getitem_ train_df (Some (text_column self)) in
  do! _ := loc_setitem train_df "autotrain_text" text in
  do! label := getitem_ train_df (Some (label_column self)) in
  do! _ := loc_setitem train_df "autotrain_label" label in
  do! text := getitem_ valid_df (Some (text_column self)) in
  do! _ := loc_setitem valid_df "autotrain_text" text in
  do! label := getitem_ valid_df (Some (label_column self)) in
  do! _ := loc_setitem valid_df "autotrain_label" label in
  do! train_df := drop train_df [Some (text_column self); Some (label_column self)] in
  do! valid_df := drop valid_df [Some (text_column self); Some (label_column self)] in
  unit_ (train_df, valid_df).

End WithPandas.
End Binary.

(** [LLMPreprocessor]: [__post_init__], which may assign [prompt_column] and
    [rejected_text_column] and so returns the object as it leaves it, and
    [prepare_columns]. *)
Module LLM.
Section WithPandas.
Context `{Pandas} `{Countable DataFrame} `{!Infinite DataFrame}.
Import Frames LLMPreprocessor.

Definition __post_init__ (self : t) : P t :=
  if bool_decide (text_column self <> None)
     && (bool_decide (prompt_column self <> None)
         || bool_decide (rejected_text_column self <> None))
  then
    throw (ValueError
      "Please provide either text_column or prompt_column and rejected_text_column")
  else
  let self :=
    if bool_decide (text_column self <> None) then
      mk (train_data self) (username self) (project_name self) (token self)
         (valid_data self) (test_size self) (seed self) (text_column self)
         (text_column self) (text_column self)
    else self in
  do! found := column_in (prompt_column self) (train_data self) in
  if negb found then
    throw (ValueError (str_ (prompt_column self) ++ " not in train data"))
  else
  do! found := column_in (rejected_text_column self) (train_data self) in
  if negb found then
    throw (ValueError (str_ (rejected_text_column self) ++ " not in train data"))
  else
  do! _ :=
    match valid_data self with
    | Some valid =>
        do! found := column_in (prompt_column self) valid in
        if negb found then
          throw (ValueError (str_ (prompt_column self) ++ " not in valid data"))
        else
        do! found := column_in (rejected_text_column self) valid in
        if negb found then
          throw (ValueError (str_ (rejected_text_column self) ++ " not in valid data"))
        else unit_ tt
    | None => unit_ tt
    end in
  do! _ := ReservedColumns.check (train_data self) (valid_data self)
             (RESERVED_COLUMNS ++ LLM_RESERVED_COLUMNS) in
  unit_ self.

Definition prepare_columns (self : t) (train_df valid_df : DataFrame)
  : P (DataFrame * DataFrame) :=
  match text_column self with
  | Some _ =>
      do! text := getitem_ train_df (text_column self) in
      do! _ := loc_setitem train_df "autotrain_text" text in
      do! text := getitem_ valid_df (text_column self) in
      do! _ := loc_setitem valid_df "autotrain_text" text in
      do! train_df := drop train_df [text_column self] in
      do! valid_df := drop valid_df [text_column self] in
      unit_ (train_df, valid_df)
  | None =>
      do! prompt := getitem_ train_df (prompt_column self) in
      do! _ := loc_setitem train_df "autotrain_prompt" prompt in
      do! prompt := getitem_ valid_df (prompt_column self) in
      do! _ := loc_setitem valid_df "autotrain_prompt" prompt in
      do! rejected := getitem_ train_df (rejected_text_column self) in
      do! _ := loc_setitem train_df "autotrain_rejected_text" rejected in
      do! rejected := getitem_ valid_df (rejected_text_column self) in
      do! _ := loc_setitem valid_df "autotrain_rejected_text" rejected in
      do! train_df := drop train_df [prompt_column self; rejected_text_column self] in
      do! valid_df := drop valid_df [prompt_column self; rejected_text_column self] in
      unit_ (train_df, valid_df)
  end.

End WithPandas.
End LLM.

(** [Seq2SeqPreprocessor]: the same two methods as the binary class, written
    out again in the source. *)
Module Seq2Seq.
Section WithPandas.
Context `{Pandas} `{Countable DataFrame} `{!Infinite DataFrame}.
Import Frames Seq2SeqPreprocessor.

Definition __post_init__ (self : t) : P unit :=
  do! found := column_in (Some (text_column self)) (train_data self) in
  if negb found then
    throw (ValueError (text_column self ++ " not in train data"))
  else
  do! found := column_in (Some (label_column self)) (train_data self) in
  if negb found then
    throw (ValueError (label_column self ++ " not in train data"))
  else
  do! _ :=
    match valid_data self with
    | Some valid =>
        do! found := column_in (Some (text_column self)) valid in
        if negb found then
          throw (ValueError (text_column self ++ " not in valid data"))
        else
        do! found := column_in (Some (label_column self)) valid in
        if negb found then
          throw (ValueError (label_column self ++ " not in valid data"))
        else unit_ tt
    | None => unit_ tt
    end in
  ReservedColumns.check (train_data self) (valid_data self) RESERVED_COLUMNS.

Definition prepare_columns (self : t) (train_df valid_df : DataFrame)
  : P (DataFrame * DataFrame) :=
  do! text := getitem_ train_df (Some (text_column self)) in
  do! _ := loc_setitem train_df "autotrain_text" text in
  do! label := getitem_ train_df (Some (label_column self)) in
  do! _ := loc_setitem train_df "autotrain_label" label in
  do! text := getitem_ valid_df (Some (text_column self)) in
  do! _ := loc_setitem valid_df "autotrain_text" text in
  do! label := getitem_ valid_df (Some (label_column self)) in
  do! _ := loc_setitem valid_df "autotrain_label" label in
  do! train_df := drop train_df [Some (text_column self); Some (label_column self)] in
  do! valid_df := drop valid_df [Some (text_column self); Some (label_column self)] in
  unit_ (train_df, valid_df).

End WithPandas.
End Seq2Seq.

(** The references of the sample interface are numbers. *)
#[local] Instance toy_eq_dec : EqDecision (@DataFrame toy_pandas) := Nat.eq_dec.
#[local] Instance toy_countable : Countable (@DataFrame toy_pandas) := nat_countable.
#[local] Instance toy_infinite : Infinite (@DataFrame toy_pandas) := nat_infinite.

(** A store for the samples: frame 7 has the columns [text], [label] and
    [id]. *)
Definition toy_frame : @Frames.frame toy_pandas :=
  [("text", (0%nat, "text")); ("label", (1%nat, "label")); ("id", (2%nat, "id"))].

Definition toy_store : gmap (@DataFrame toy_pandas) (@Frames.frame toy_pandas) :=
  {[ 7%nat := toy_frame ]}.

(** An [LLMPreprocessor] as a user builds it, with [text_column] only. *)
Definition llm_input : @LLMPreprocessor.t toy_pandas :=
  @LLMPreprocessor.mk toy_pandas 7%nat "user" "project" "token" None
                      (Some 20%nat) (Some 42) (Some "text") None None.

(** One with a prompt and a rejected-text column. *)
Definition llm_pair_input : @LLMPreprocessor.t toy_pandas :=
  @LLMPreprocessor.mk toy_pandas 7%nat "user" "project" "token" None
                      (Some 20%nat) (Some 42) None (Some "text") (Some "label").




(** A binary preprocessor whose text column has a reserved name, and an
    [LLMPreprocessor] built without any column. *)
Definition binary_reserved_sample : @TextBinaryClassificationPreprocessor.t toy_pandas :=
  @TextBinaryClassificationPreprocessor.mk toy_pandas
    7%nat "autotrain_text" "label" "user" "project" "token" None (Some 20%nat)
    (Some 42) (Some false).

Definition llm_empty_input : @LLMPreprocessor.t toy_pandas :=
  @LLMPreprocessor.mk toy_pandas 7%nat "user" "project" "token" None
                      (Some 20%nat) (Some 42) None None None.


(** * Properties of the callback *)

Import Callbacks.

(** *** Equations of the hook *)

Lemma percent_of_nonzero state h :
  max_steps state <> 0 ->
  percent_of state h = Ok (100 * (global_step state / max_steps state)) h.
Proof.
  intros Hne. unfold percent_of, bind, floordiv.
  destruct (Z.eqb_spec (max_steps state) 0) as [E|_]; [contradiction|].
  reflexivity.
Qed.

Lemma percent_of_zero state h :
  max_steps state = 0 -> percent_of state h = Raise ZeroDivisionError h.
Proof.
  intros E. unfold percent_of, bind, floordiv. rewrite E. reflexivity.
Qed.

Lemma milestones_Some self h s :
  milestones self h = Some (Some s) ->
  callbacks h !! self = Some (mkInstance (Some s)).
Proof.
  unfold milestones. destruct (callbacks h !! self) as [[o]|]; simpl; [|done].
  intros [= ->]. reflexivity.
Qed.

Lemma get_steps_done_Some self h s :
  milestones self h = Some (Some s) -> get_steps_done self h = Ok s h.
Proof.
  intros Hm. unfold get_steps_done. rewrite (milestones_Some _ _ _ Hm). reflexivity.
Qed.

(** A percent already recorded: the hook returns [control] and the heap is
    untouched. *)
Lemma on_step_begin_seen self state control h s :
  max_steps state <> 0 ->
  milestones self h = Some (Some s) ->
  100 * (global_step state / max_steps state) ∈ s ->
  on_step_begin self state control h = Ok control h.
Proof.
  intros Hne Hm Hin. unfold on_step_begin, bind.
  rewrite percent_of_nonzero by done.
  rewrite (get_steps_done_Some _ _ _ Hm).
  rewrite bool_decide_eq_true_2 by done. reflexivity.
Qed.

(** A new percent: it is added to the set and the flag is assigned. *)
Lemma on_step_begin_new self state control h s c :
  max_steps state <> 0 ->
  milestones self h = Some (Some s) ->
  controls h !! control = Some c ->
  100 * (global_step state / max_steps state) ∉ s ->
  on_step_begin self state control h =
    Ok control
       (mkHeap (<[self := mkInstance
                   (Some ({[100 * (global_step state / max_steps state)]} ∪ s))]>
                  (callbacks h))
               (<[control := with_should_evaluate true c]> (controls h))).
Proof.
  intros Hne Hm Hc Hnin. unfold on_step_begin, bind.
  rewrite percent_of_nonzero by done.
  rewrite (get_steps_done_Some _ _ _ Hm).
  rewrite bool_decide_eq_false_2 by done. simpl.
  unfold steps_done_add, bind. rewrite (get_steps_done_Some _ _ _ Hm).
  unfold set_should_evaluate. simpl. rewrite Hc. reflexivity.
Qed.


(** *** One decision of the caller *)

Lemma milestones_insert self inst h ctl :
  milestones self (mkHeap (<[self := inst]> (callbacks h)) ctl)
  = Some (steps_done inst).
Proof. unfold milestones. simpl. rewrite lookup_insert_eq. reflexivity. Qed.

Lemma step_decision_eval self control current_step total_steps h s c :
  total_steps <> 0 ->
  milestones self h = Some (Some s) ->
  controls h !! control = Some c ->
  let p := 100 * (current_step / total_steps) in
  exists h',
    step_decision self control current_step total_steps h
      = Ok (negb (bool_decide (p ∈ s))) h'
    /\ milestones self h'
      = Some (Some (if bool_decide (p ∈ s) then s else {[ p ]} ∪ s))
    /\ is_Some (controls h' !! control).
Proof.
  intros Hne Hm Hc p. unfold step_decision, bind, new_step. rewrite Hc.
  set (h1 := mkHeap (callbacks h) (<[control := cleared c]> (controls h))).
  assert (Hm1 : milestones self h1 = Some (Some s)) by exact Hm.
  assert (Hc1 : controls h1 !! control = Some (cleared c))
    by (subst h1; simpl; apply lookup_insert_eq).
  destruct (decide (p ∈ s)) as [Hin|Hnin].
  - rewrite (on_step_begin_seen self _ control h1 s); [|done|done|done].
    unfold get_should_evaluate. rewrite Hc1. simpl.
    rewrite bool_decide_eq_true_2 by done. simpl.
    exists h1. split; [reflexivity|]. split; [done|]. rewrite Hc1. eauto.
  - rewrite (on_step_begin_new self _ control h1 s (cleared c)); [|done|done|done|done].
    unfold get_should_evaluate. simpl. rewrite lookup_insert_eq. simpl.
    rewrite bool_decide_eq_false_2 by done. simpl.
    eexists. split; [reflexivity|]. split.
    + apply milestones_insert.
    + simpl. rewrite lookup_insert_eq. eauto.
Qed.

(** *** Sequences of decisions *)

Lemma size_add_le (p : Z) (s : gset Z) :
  (size (if bool_decide (p ∈ s) then s else {[ p ]} ∪ s) <= S (size s))%nat.
Proof.
  destruct (decide (p ∈ s)) as [Hin|Hnin].
  - rewrite bool_decide_eq_true_2 by done. lia.
  - rewrite bool_decide_eq_false_2 by done.
    rewrite size_union by set_solver. rewrite size_singleton. lia.
Qed.

Lemma step_decisions_run self control calls : forall h s c,
  Forall (fun call : Z * Z => call.2 <> 0) calls ->
  milestones self h = Some (Some s) ->
  controls h !! control = Some c ->
  exists bs h' s',
    step_decisions self control calls h = Ok bs h'
    /\ milestones self h' = Some (Some s')
    /\ is_Some (controls h' !! control)
    /\ length bs = length calls
    /\ s ⊆ s'
    /\ s' ⊆ s ∪ list_to_set (percents calls)
    /\ (size s' <= size s + length calls)%nat.
Proof.
  induction calls as [|[cs ts] rest IH]; intros h s c Hall Hm Hc.
  - exists [], h, s. simpl.
    repeat split; [exact Hm | eauto | done | apply union_subseteq_l | lia].
  - inversion Hall as [|? ? Hts Hrest]; subst. simpl in Hts.
    destruct (step_decision_eval self control cs ts h s c Hts Hm Hc)
      as (h1 & E1 & Hm1 & c1 & Hc1).
    destruct (IH h1 _ c1 Hrest Hm1 Hc1)
      as (bs & h' & s' & E2 & Hm' & Hc' & Hlen & Hsub & Hsup & Hsize).
    exists (negb (bool_decide (100 * (cs / ts) ∈ s)) :: bs), h', s'.
    split.
    { simpl. unfold bind at 1. rewrite E1. unfold bind at 1. rewrite E2.
      reflexivity. }
    split; [exact Hm'|]. split; [exact Hc'|].
    split; [simpl; congruence|].
    pose proof (size_add_le (100 * (cs / ts)) s) as Hadd.
    unfold percents in *. simpl. unfold int in *.
    destruct (bool_decide (100 * (cs / ts) ∈ s)).
    + repeat split; [exact Hsub | | lia].
      intros x Hx. apply Hsup in Hx. rewrite !elem_of_union in *. tauto.
    + repeat split; [| | lia].
      * intros x Hx. apply Hsub. apply elem_of_union. by right.
      * intros x Hx. apply Hsup in Hx. rewrite !elem_of_union in *. tauto.
Qed.



(** ** The percent *)

(** C1, as stated, fails: at [current_step = 6], [total_steps = 3] the
    percent the hook computes is 200, not the clamped 100, and 200 is what
    it adds to the set. *)
Lemma percent_clamp_counterexample :
  0 < 3 /\ 3 <= 6
  /\ percent_of (mkState 6 3) heap_seeded = Ok 200 heap_seeded
  /\ spec_percent 6 3 = 100
  /\ percent_of (mkState 6 3) heap_seeded <> Ok (spec_percent 6 3) heap_seeded
  /\ exists h', on_step_begin 1%positive (mkState 6 3) 1%positive heap_seeded
                = Ok 1%positive h'
             /\ milestones 1%positive h' = Some (Some ({[ 200 ]} ∪ {[ 0 ]})).
Proof.
  split; [lia|]. split; [lia|]. split; [reflexivity|]. split; [reflexivity|].
  split; [discriminate|].
  eexists. split.
  - apply (on_step_begin_new 1%positive (mkState 6 3) 1%positive heap_seeded {[ 0 ]} control0);
      [simpl; lia | reflexivity | reflexivity | ].
    rewrite elem_of_singleton. vm_compute. discriminate.
  - rewrite milestones_insert. reflexivity.
Qed.

(** C1, amended: for [total_steps > 0] the percent is computed without a
    clamp.  It is exactly [100 * k] at every [current_step = k * total_steps]
    (100 at [total_steps], 200 at twice that), at least 100 from
    [total_steps] on and above 100 from [2 * total_steps] on; for
    [current_step >= 0] it lies between 0 and
    [floor(100 * current_step / total_steps)]. *)
Theorem percent_of_unclamped current_step total_steps h :
  0 < total_steps ->
  exists p,
    percent_of (mkState current_step total_steps) h = Ok p h
    /\ (forall k, current_step = k * total_steps -> p = 100 * k)
    /\ (total_steps <= current_step -> 100 <= p)
    /\ (2 * total_steps <= current_step -> 100 < p)
    /\ (0 <= current_step -> 0 <= p <= 100 * current_step / total_steps).
Proof.
  intros Hpos. exists (100 * (current_step / total_steps)).
  split; [apply percent_of_nonzero; simpl; lia|].
  split; [intros k ->; rewrite Z.div_mul by lia; reflexivity|].
  split.
  { intros Hle.
    assert (1 <= current_step / total_steps)
      by (apply Z.div_le_lower_bound; lia).
    lia. }
  split.
  { intros Hle.
    assert (2 <= current_step / total_steps)
      by (apply Z.div_le_lower_bound; lia).
    lia. }
  intros Hcs. split.
  - assert (0 <= current_step / total_steps) by (apply Z.div_pos; lia). lia.
  - apply Z.div_mul_le; lia.
Qed.

Lemma percent_of_unclamped_witness :
  0 < 3
  /\ exists p,
       percent_of (mkState 6 3) heap_seeded = Ok p heap_seeded
       /\ (forall k, 6 = k * 3 -> p = 100 * k)
       /\ (3 <= 6 -> 100 <= p)
       /\ (2 * 3 <= 6 -> 100 < p)
       /\ (0 <= 6 -> 0 <= p <= 100 * 6 / 3).
Proof.
  split; [lia | apply (percent_of_unclamped 6 3 heap_seeded); lia].
Defined.

(** ** Construction *)

(** C2 on the code: [__init__] binds [set([0])] to a local variable, so the
    constructed instance has no [steps_done] attribute at all. *)
Theorem construct_has_no_steps_done h :
  exists self h',
    construct h = Ok self h'
    /\ callbacks h !! self = None
    /\ milestones self h' = Some None
    /\ controls h' = controls h.
Proof.
  exists (fresh (dom (callbacks h))). eexists.
  split; [reflexivity|]. split.
  - apply not_elem_of_dom. apply is_fresh.
  - split; [apply milestones_insert | reflexivity].
Qed.

(** ** A total step count that is not positive *)

(** C3, as stated, fails for a negative total: with [current_step = 5] and
    [total_steps = -3] a callback holding [{0}] returns normally and records
    [-200]; a constructed callback fails, but with an [AttributeError]. *)
Lemma negative_total_steps_counterexample :
  -3 <= 0
  /\ (exists h', on_step_begin 1%positive (mkState 5 (-3)) 1%positive heap_seeded
                 = Ok 1%positive h'
              /\ milestones 1%positive h' = Some (Some ({[ -200 ]} ∪ {[ 0 ]})))
  /\ (exists self h',
        construct heap_empty = Ok self h'
        /\ on_step_begin self (mkState 5 (-3)) 1%positive h'
           = Raise (AttributeError "steps_done") h').
Proof.
  split; [lia|]. split.
  - eexists. split.
    + apply (on_step_begin_new 1%positive (mkState 5 (-3)) 1%positive heap_seeded
               {[ 0 ]} control0);
        [simpl; lia | reflexivity | reflexivity | ].
      rewrite elem_of_singleton. vm_compute. discriminate.
    + rewrite milestones_insert. reflexivity.
  - eexists _, _. split; [reflexivity|]. vm_compute. reflexivity.
Qed.

(** C3, amended: with [total_steps = 0] the floor division raises
    [ZeroDivisionError] before the set is read; the exception reaches the
    caller and the heap (milestone set and control) is as it was.  A negative
    [total_steps] passes the division. *)
Theorem zero_total_steps_raises self state control h :
  (max_steps state = 0 ->
   on_step_begin self state control h = Raise ZeroDivisionError h)
  /\ (max_steps state < 0 -> exists p, percent_of state h = Ok p h).
Proof.
  split.
  - intros E. unfold on_step_begin, bind. rewrite percent_of_zero by done.
    reflexivity.
  - intros Hneg. eexists. apply percent_of_nonzero. lia.
Qed.

Lemma zero_total_steps_raises_witness :
  max_steps (mkState 5 0) = 0
  /\ on_step_begin 1%positive (mkState 5 0) 1%positive heap_seeded
     = Raise ZeroDivisionError heap_seeded
  /\ max_steps (mkState 5 (-3)) < 0
  /\ exists p, percent_of (mkState 5 (-3)) heap_seeded = Ok p heap_seeded.
Proof.
  split; [reflexivity|]. split.
  - apply (zero_total_steps_raises 1%positive (mkState 5 0) 1%positive heap_seeded).
    reflexivity.
  - split; [simpl; lia|].
    apply (zero_total_steps_raises 1%positive (mkState 5 (-3)) 1%positive heap_seeded).
    simpl; lia.
Defined.

(** ** Growth of the milestone set *)

Lemma overrun_positive n : Forall (fun call : Z * Z => 0 < call.2) (overrun n).
Proof.
  unfold overrun. induction (seq 0 n) as [|k l IH]; constructor; simpl; [lia|exact IH].
Qed.

Lemma percents_in_range calls :
  Forall (fun call : Z * Z => 0 < call.2) calls ->
  Forall (fun call : Z * Z => 0 <= call.1 <= call.2) calls ->
  (list_to_set (percents calls) : gset Z) ⊆ list_to_set (seqZ 0 101).
Proof.
  intros Hpos Hrange x Hx.
  apply elem_of_list_to_set in Hx. apply elem_of_list_to_set.
  unfold percents in Hx. apply list_elem_of_fmap in Hx as [[cs ts] [-> Hin]].
  rewrite Forall_forall in Hpos, Hrange.
  specialize (Hpos _ Hin). specialize (Hrange _ Hin). simpl in *.
  apply elem_of_seqZ. unfold int.
  assert (0 <= cs / ts) by (apply Z.div_pos; lia).
  assert (cs / ts <= 1) by (apply Z.div_le_upper_bound; lia).
  lia.
Qed.

Lemma size_hundred_and_one : size (list_to_set (seqZ 0 101) : gset Z) = 101%nat.
Proof. vm_compute. reflexivity. Qed.

(** C4, as stated, fails: the calls [(0,1), (1,1), ..., (101,1)], all with
    [total_steps = 1 > 0], leave 102 entries in a set that started as [{0}]. *)
Lemma milestones_exceed_101 :
  Forall (fun call : Z * Z => 0 < call.2) (overrun 102)
  /\ exists bs h' s',
       step_decisions 1%positive 1%positive (overrun 102) heap_seeded = Ok bs h'
       /\ milestones 1%positive h' = Some (Some s')
       /\ size s' = 102%nat
       /\ ~ (size s' <= 101)%nat.
Proof.
  split; [apply overrun_positive|].
  assert (Hrun :
    match step_decisions 1%positive 1%positive (overrun 102) heap_seeded with
    | Ok _ h' =>
        match milestones 1%positive h' with
        | Some (Some s') => size s' = 102%nat
        | _ => False
        end
    | _ => False
    end) by (vm_compute; reflexivity).
  destruct (step_decisions 1%positive 1%positive (overrun 102) heap_seeded)
    as [bs h'| |]; [|contradiction|contradiction].
  destruct (milestones 1%positive h') as [[s'|]|] eqn:Em; [|contradiction|contradiction].
  exists bs, h', s'.
  split; [reflexivity|]. split; [exact Em|]. split; [exact Hrun|lia].
Qed.

(** C4, amended: for every sequence of calls with [total_steps > 0] the
    milestone set only gains elements, at most one per call, and keeps
    growing from any state reached; its size is not bounded in general.
    When every call also has [0 <= current_step <= total_steps], a set
    within [0..100] stays within it and so holds at most 101 entries. *)
Theorem milestones_only_grow self control calls h s c :
  Forall (fun call : Z * Z => 0 < call.2) calls ->
  milestones self h = Some (Some s) ->
  controls h !! control = Some c ->
  exists bs h' s',
    step_decisions self control calls h = Ok bs h'
    /\ milestones self h' = Some (Some s')
    /\ s ⊆ s'
    /\ (size s' <= size s + length calls)%nat
    /\ (forall more, Forall (fun call : Z * Z => 0 < call.2) more ->
        exists bs2 h2 s2,
          step_decisions self control more h' = Ok bs2 h2
          /\ milestones self h2 = Some (Some s2)
          /\ s' ⊆ s2)
    /\ (Forall (fun call : Z * Z => 0 <= call.1 <= call.2) calls ->
        s ⊆ list_to_set (seqZ 0 101) ->
        (size s' <= 101)%nat).
Proof.
  intros Hpos Hm Hc.
  assert (Hnz : forall l, Forall (fun call : Z * Z => 0 < call.2) l ->
                          Forall (fun call : Z * Z => call.2 <> 0) l).
  { intros l Hl. eapply Forall_impl; [exact Hl|]. simpl. intros; lia. }
  destruct (step_decisions_run self control calls h s c (Hnz _ Hpos) Hm Hc)
    as (bs & h' & s' & E & Hm' & [c' Hc'] & _ & Hsub & Hsup & Hsize).
  exists bs, h', s'.
  split; [exact E|]. split; [exact Hm'|]. split; [exact Hsub|].
  split; [exact Hsize|]. split.
  - intros more Hmore.
    destruct (step_decisions_run self control more h' s' c' (Hnz _ Hmore) Hm' Hc')
      as (bs2 & h2 & s2 & E2 & Hm2 & _ & _ & Hsub2 & _).
    exists bs2, h2, s2. auto.
  - intros Hrange Hs. rewrite <- size_hundred_and_one.
    apply subseteq_size.
    pose proof (percents_in_range calls Hpos Hrange) as Hp.
    intros x Hx. apply Hsup in Hx. apply elem_of_union in Hx as [Hx|Hx]; auto.
Qed.

Lemma milestones_only_grow_witness :
  Forall (fun call : Z * Z => 0 < call.2) [(0, 3); (1, 3); (3, 3)]
  /\ milestones 1%positive heap_seeded = Some (Some {[ 0 ]})
  /\ controls heap_seeded !! 1%positive = Some control0
  /\ exists bs h' s',
       step_decisions 1%positive 1%positive [(0, 3); (1, 3); (3, 3)] heap_seeded
         = Ok bs h'
       /\ milestones 1%positive h' = Some (Some s')
       /\ {[ 0 ]} ⊆ s'
       /\ (size s' <= size ({[ 0%Z ]} : gset Z) + 3)%nat
       /\ (size s' <= 101)%nat.
Proof.
  assert (Hpos : Forall (fun call : Z * Z => 0 < call.2) [(0, 3); (1, 3); (3, 3)])
    by (repeat constructor; simpl; lia).
  assert (Hrange : Forall (fun call : Z * Z => 0 <= call.1 <= call.2)
                          [(0, 3); (1, 3); (3, 3)])
    by (repeat constructor; simpl; lia).
  assert (Hseed : ({[ 0 ]} : gset Z) ⊆ list_to_set (seqZ 0 101)).
  { apply singleton_subseteq_l, elem_of_list_to_set, elem_of_seqZ. lia. }
  split; [exact Hpos|]. split; [reflexivity|]. split; [reflexivity|].
  destruct (milestones_only_grow 1%positive 1%positive [(0, 3); (1, 3); (3, 3)]
              heap_seeded {[ 0 ]} control0 Hpos eq_refl eq_refl)
    as (bs & h' & s' & E & Hm' & Hsub & Hsize & _ & Hbound).
  exists bs, h', s'.
  split; [exact E|]. split; [exact Hm'|]. split; [exact Hsub|].
  split; [exact Hsize | exact (Hbound Hrange Hseed)].
Defined.

(** ** One call *)



(** C6 on the code: with [total_steps = 3] the steps 0, 1, 2, 3 compute the
    percents 0, 0, 0, 100; a callback holding [{0}] decides false, false,
    false, true, and a constructed callback raises [AttributeError]. *)
Theorem three_steps_decisions :
  percents [(0, 3); (1, 3); (2, 3); (3, 3)] = [0; 0; 0; 100]
  /\ map (fun call : Z * Z => spec_percent call.1 call.2)
         [(0, 3); (1, 3); (2, 3); (3, 3)] = [0; 33; 66; 100]
  /\ (exists h',
        step_decisions 1%positive 1%positive [(0, 3); (1, 3); (2, 3); (3, 3)]
                       heap_seeded
        = Ok [false; false; false; true] h')
  /\ (exists self h' h'',
        construct heap_empty = Ok self h'
        /\ step_decisions self 1%positive [(0, 3); (1, 3); (2, 3); (3, 3)] h'
           = Raise (AttributeError "steps_done") h'').
Proof.
  split; [reflexivity|]. split; [reflexivity|]. split.
  - eexists. vm_compute. reflexivity.
  - eexists _, _, _. split; [reflexivity|]. vm_compute. reflexivity.
Qed.

(** C7 on the code: the first call on a constructed callback, at step 0 of
    any [T > 0], raises [AttributeError]: the set was never stored. *)
Theorem constructed_gate_first_call_raises h control T :
  0 < T ->
  exists self h',
    construct h = Ok self h'
    /\ on_step_begin self (mkState 0 T) control h'
       = Raise (AttributeError "steps_done") h'.
Proof.
  intros HT. eexists _, _. split; [reflexivity|].
  unfold on_step_begin, bind. rewrite percent_of_nonzero by (simpl; lia).
  unfold get_steps_done. simpl. rewrite lookup_insert_eq. reflexivity.
Qed.

Lemma constructed_gate_first_call_raises_witness :
  0 < 1
  /\ exists self h',
       construct heap_empty = Ok self h'
       /\ on_step_begin self (mkState 0 1) 1%positive h'
          = Raise (AttributeError "steps_done") h'.
Proof.
  split; [lia | apply (constructed_gate_first_call_raises heap_empty 1%positive 1); lia].
Defined.



(** ** The control object *)

(** C9, as stated, fails: with [max_steps = 0] the hook raises and returns no
    control at all. *)
Lemma on_step_begin_no_return_counterexample :
  on_step_begin 1%positive (mkState 5 0) 1%positive heap_seeded
  = Raise ZeroDivisionError heap_seeded
  /\ ~ exists returned h',
        on_step_begin 1%positive (mkState 5 0) 1%positive heap_seeded
        = Ok returned h'.
Proof.
  split; [reflexivity|]. intros (returned & h' & E). discriminate E.
Qed.

(** C9, amended: on every call with [max_steps <> 0], on a callback that
    holds a milestone set, the hook returns the reference [control] it was
    passed.  When the percent is already in the set the heap is left exactly
    as it was: nothing is written to the control.  When the percent is new,
    the control keeps its other fields and gets [should_evaluate = True], and
    no other control is touched. *)
Theorem on_step_begin_returns_control self state control h s c :
  max_steps state <> 0 ->
  milestones self h = Some (Some s) ->
  controls h !! control = Some c ->
  exists p h',
    percent_of state h = Ok p h
    /\ on_step_begin self state control h = Ok control h'
    /\ (p ∈ s -> h' = h)
    /\ (p ∉ s ->
        controls h' !! control = Some (with_should_evaluate true c)
        /\ milestones self h' = Some (Some ({[ p ]} ∪ s)))
    /\ (forall other, other <> control -> controls h' !! other = controls h !! other).
Proof.
  intros Hne Hm Hc.
  exists (100 * (global_step state / max_steps state)).
  destruct (decide (100 * (global_step state / max_steps state) ∈ s)) as [Hin|Hnin].
  - exists h. split; [apply percent_of_nonzero; exact Hne|].
    split; [apply (on_step_begin_seen self state control h s); done|].
    split; [reflexivity|]. split; [intros Hnin; contradiction | reflexivity].
  - eexists. split; [apply percent_of_nonzero; exact Hne|].
    split; [apply (on_step_begin_new self state control h s c); done|].
    split; [intros Hin; contradiction|]. split.
    + intros _. split; [simpl; apply lookup_insert_eq | apply milestones_insert].
    + intros other Hother. simpl. apply lookup_insert_ne. congruence.
Qed.

Lemma on_step_begin_returns_control_witness :
  max_steps (mkState 3 3) <> 0
  /\ milestones 1%positive heap_seeded = Some (Some {[ 0 ]})
  /\ controls heap_seeded !! 1%positive = Some control0
  /\ exists p h',
       percent_of (mkState 3 3) heap_seeded = Ok p heap_seeded
       /\ on_step_begin 1%positive (mkState 3 3) 1%positive heap_seeded
          = Ok 1%positive h'
       /\ (p ∈ ({[ 0 ]} : gset Z) -> h' = heap_seeded)
       /\ (p ∉ ({[ 0 ]} : gset Z) ->
           controls h' !! 1%positive = Some (with_should_evaluate true control0)
           /\ milestones 1%positive h' = Some (Some ({[ p ]} ∪ {[ 0 ]})))
       /\ (forall other, other <> 1%positive ->
           controls h' !! other = controls heap_seeded !! other).
Proof.
  split; [simpl; lia|]. split; [reflexivity|]. split; [reflexivity|].
  apply (on_step_begin_returns_control 1%positive (mkState 3 3) 1%positive
           heap_seeded {[ 0 ]} control0);
    [simpl; lia | reflexivity | reflexivity].
Defined.

(** * Properties of [split] *)

(** C10: an [LLMPreprocessor] without validation data returns its training
    frame twice, the same reference, whatever [train_test_split] would
    compute; the other preprocessors return the two frames that
    [train_test_split] makes of the training frame, re-indexed. *)
Theorem llm_split_without_valid_data `{Pandas}
    (llm : LLMPreprocessor.t)
    (binary : TextBinaryClassificationPreprocessor.t)
    (regression : TextSingleColumnRegressionPreprocessor.t)
    (seq2seq : Seq2SeqPreprocessor.t) :
  LLMPreprocessor.valid_data llm = None ->
  LLMPreprocessor.split llm
  = (LLMPreprocessor.train_data llm, LLMPreprocessor.train_data llm)
  /\ (TextBinaryClassificationPreprocessor.valid_data binary = None ->
      TextBinaryClassificationPreprocessor.split binary
      = (let parts :=
           train_test_split
             (TextBinaryClassificationPreprocessor.train_data binary)
             (TextBinaryClassificationPreprocessor.test_size binary)
             (TextBinaryClassificationPreprocessor.seed binary)
             (Some (getitem
                      (TextBinaryClassificationPreprocessor.train_data binary)
                      (TextBinaryClassificationPreprocessor.label_column binary))) in
         (reset_index parts.1, reset_index parts.2))
      /\ TextMultiClassClassificationPreprocessor.split binary
         = TextBinaryClassificationPreprocessor.split binary)
  /\ (TextBinaryClassificationPreprocessor.valid_data regression = None ->
      TextSingleColumnRegressionPreprocessor.split regression
      = (let parts :=
           train_test_split
             (TextBinaryClassificationPreprocessor.train_data regression)
             (TextBinaryClassificationPreprocessor.test_size regression)
             (TextBinaryClassificationPreprocessor.seed regression)
             None in
         (reset_index parts.1, reset_index parts.2)))
  /\ (Seq2SeqPreprocessor.valid_data seq2seq = None ->
      Seq2SeqPreprocessor.split seq2seq
      = (let parts :=
           train_test_split
             (Seq2SeqPreprocessor.train_data seq2seq)
             (Seq2SeqPreprocessor.test_size seq2seq)
             (Seq2SeqPreprocessor.seed seq2seq)
             (Some (getitem
                      (Seq2SeqPreprocessor.train_data seq2seq)
                      (Seq2SeqPreprocessor.label_column seq2seq))) in
         (reset_index parts.1, reset_index parts.2))).
Proof.
  intros Hllm. split.
  - unfold LLMPreprocessor.split. rewrite Hllm. reflexivity.
  - split; [|split].
    + intros Hb. split; [|reflexivity].
      unfold TextBinaryClassificationPreprocessor.split. rewrite Hb.
      destruct (train_test_split _ _ _ _). reflexivity.
    + intros Hr. unfold TextSingleColumnRegressionPreprocessor.split. rewrite Hr.
      destruct (train_test_split _ _ _ _). reflexivity.
    + intros Hs. unfold Seq2SeqPreprocessor.split. rewrite Hs.
      destruct (train_test_split _ _ _ _). reflexivity.
Qed.

Lemma llm_split_without_valid_data_witness :
  LLMPreprocessor.valid_data llm_sample = None
  /\ LLMPreprocessor.split llm_sample = (7%nat, 7%nat)
  /\ TextBinaryClassificationPreprocessor.split binary_sample = (115%nat, 116%nat)
  /\ TextSingleColumnRegressionPreprocessor.split binary_sample = (115%nat, 116%nat)
  /\ Seq2SeqPreprocessor.split seq2seq_sample = (115%nat, 116%nat).
Proof.
  destruct (@llm_split_without_valid_data toy_pandas llm_sample binary_sample
              binary_sample seq2seq_sample eq_refl)
    as (Hllm & Hbinary & Hregression & Hseq2seq).
  split; [reflexivity|]. split; [exact Hllm|].
  split; [exact (proj1 (Hbinary eq_refl))|].
  split; [exact (Hregression eq_refl) | exact (Hseq2seq eq_refl)].
Defined.

(** * Further properties of the callback *)

(** The set after a decision, whichever branch was taken. *)
Lemma add_if_new (p : Z) (s : gset Z) :
  (if bool_decide (p ∈ s) then s else {[ p ]} ∪ s) = {[ p ]} ∪ s.
Proof.
  destruct (decide (p ∈ s)) as [Hin|Hnin].
  - rewrite bool_decide_eq_true_2 by done. apply leibniz_equiv.
    intros x. rewrite elem_of_union, elem_of_singleton. split; [tauto|].
    intros [->|Hx]; assumption.
  - by rewrite bool_decide_eq_false_2.
Qed.

(** Every decision of a sequence, and the set it leaves. *)
Lemma step_decisions_each self control calls : forall h s c,
  Forall (fun call : Z * Z => call.2 <> 0) calls ->
  milestones self h = Some (Some s) ->
  controls h !! control = Some c ->
  exists bs h',
    step_decisions self control calls h = Ok bs h'
    /\ milestones self h' = Some (Some (list_to_set (percents calls) ∪ s))
    /\ length bs = length calls
    /\ (size (list_to_set (percents calls) ∪ s)
        = size s + length (filter (fun b : bool => b = true) bs))%nat
    /\ (forall j p, percents calls !! j = Some p ->
        bs !! j = Some (bool_decide ((p ∉ s) /\ (p ∉ take j (percents calls))))).
Proof.
  induction calls as [|[cs ts] rest IH]; intros h s c Hall Hm Hc.
  - exists [], h. change (percents []) with (@nil Z). simpl.
    rewrite (left_id_L ∅ (∪) s).
    split; [reflexivity|]. split; [exact Hm|]. split; [reflexivity|].
    split; [lia|]. intros j p Hj. destruct j; discriminate.
  - inversion Hall as [|? ? Hts Hrest]; subst. simpl in Hts.
    destruct (step_decision_eval self control cs ts h s c Hts Hm Hc)
      as (h1 & E1 & Hm1 & c1 & Hc1).
    set (p0 := 100 * (cs / ts)) in *.
    rewrite add_if_new in Hm1.
    destruct (IH h1 _ c1 Hrest Hm1 Hc1) as (bs & h' & E2 & Hm' & Hlen & Hsize & Heach).
    assert (Hset : list_to_set (percents ((cs, ts) :: rest)) ∪ s
                   = list_to_set (percents rest) ∪ ({[ p0 ]} ∪ s)).
    { apply leibniz_equiv. intros x. unfold percents at 1. simpl. unfold int.
      fold p0. fold (percents rest).
      rewrite !elem_of_union. tauto. }
    exists (negb (bool_decide (p0 ∈ s)) :: bs), h'.
    split.
    { simpl. unfold bind at 1. rewrite E1. unfold bind at 1. rewrite E2.
      reflexivity. }
    split; [by rewrite Hset|]. split; [simpl; congruence|]. split.
    + rewrite Hset, Hsize.
      destruct (decide (p0 ∈ s)) as [Hin|Hnin].
      * rewrite bool_decide_eq_true_2 by done. cbn [negb].
        rewrite filter_cons_False by discriminate.
        f_equal. f_equal. apply leibniz_equiv. intros x.
        rewrite elem_of_union, elem_of_singleton. split; [|tauto].
        intros [->|Hx]; assumption.
      * rewrite bool_decide_eq_false_2 by done. cbn [negb].
        rewrite filter_cons_True by reflexivity. cbn [length].
        rewrite size_union by (apply disjoint_singleton_l; exact Hnin).
        rewrite size_singleton. lia.
    + intros j p Hj. destruct j as [|j].
      * unfold percents in Hj. simpl in Hj. unfold int in Hj. fold p0 in Hj.
        injection Hj as <-. simpl. f_equal.
        destruct (decide (p0 ∈ s)) as [Hin|Hnin].
        -- rewrite bool_decide_eq_true_2 by done. simpl. symmetry.
           apply bool_decide_eq_false_2. tauto.
        -- rewrite bool_decide_eq_false_2 by done. simpl. symmetry.
           apply bool_decide_eq_true_2. split; [exact Hnin|apply not_elem_of_nil].
      * change (percents ((cs, ts) :: rest)) with (p0 :: percents rest) in Hj |- *.
        simpl in Hj. simpl. rewrite (Heach j p Hj). f_equal.
        apply bool_decide_ext.
        rewrite not_elem_of_union, not_elem_of_singleton, not_elem_of_cons. tauto.
Qed.

(** X1: In a sequence of calls with [max_steps <> 0], on a callback that holds a
    milestone set, the decision of a call is [true] exactly when its percent
    is neither in the set the sequence started with nor the percent of an
    earlier call of the sequence. *)
Theorem decision_true_at_first_occurrence self control calls h s c :
  Forall (fun call : Z * Z => call.2 <> 0) calls ->
  milestones self h = Some (Some s) ->
  controls h !! control = Some c ->
  exists bs h',
    step_decisions self control calls h = Ok bs h'
    /\ length bs = length calls
    /\ (forall j,
          bs !! j = Some true
          <-> exists p, percents calls !! j = Some p
                        /\ (p ∉ s) /\ (p ∉ take j (percents calls))).
Proof.
  intros Hall Hm Hc.
  destruct (step_decisions_each self control calls h s c Hall Hm Hc)
    as (bs & h' & E & _ & Hlen & _ & Heach).
  exists bs, h'. split; [exact E|]. split; [exact Hlen|].
  intros j. split.
  - intros Hj.
    assert (Hlt : (j < length (percents calls))%nat).
    { unfold percents. rewrite length_map, <- Hlen.
      apply lookup_lt_is_Some. eauto. }
    apply lookup_lt_is_Some in Hlt as [p Hp].
    exists p. split; [exact Hp|].
    rewrite (Heach j p Hp) in Hj. injection Hj as Hj.
    by apply bool_decide_eq_true in Hj.
  - intros (p & Hp & Hs & Hearlier). rewrite (Heach j p Hp). f_equal.
    apply bool_decide_eq_true_2. by split.
Qed.

Lemma decision_true_at_first_occurrence_witness :
  Forall (fun call : Z * Z => call.2 <> 0) [(3, 3); (4, 3); (6, 3)]
  /\ milestones 1%positive heap_seeded = Some (Some {[ 0 ]})
  /\ controls heap_seeded !! 1%positive = Some control0
  /\ exists bs h',
       step_decisions 1%positive 1%positive [(3, 3); (4, 3); (6, 3)] heap_seeded
       = Ok bs h'
       /\ length bs = 3%nat
       /\ bs !! 2%nat = Some true.
Proof.
  assert (Hall : Forall (fun call : Z * Z => call.2 <> 0) [(3, 3); (4, 3); (6, 3)])
    by (repeat constructor; simpl; lia).
  split; [exact Hall|]. split; [reflexivity|]. split; [reflexivity|].
  destruct (decision_true_at_first_occurrence 1%positive 1%positive
              [(3, 3); (4, 3); (6, 3)] heap_seeded {[ 0 ]} control0
              Hall eq_refl eq_refl) as (bs & h' & E & Hlen & Hiff).
  exists bs, h'. split; [exact E|]. split; [exact Hlen|].
  apply Hiff. exists 200. split; [reflexivity|]. split.
  - rewrite elem_of_singleton. discriminate.
  - intros Hin. apply list_elem_of_In in Hin. vm_compute in Hin.
    destruct Hin as [Hin|[Hin|[]]]; discriminate Hin.
Defined.

(** X2: After a sequence of calls with [max_steps <> 0], on a callback that
    holds a milestone set, the set is the starting set with the percents of
    the calls added, nothing else; it has grown by the number of [true]
    decisions; and every element that was added is a multiple of 100. *)
Theorem milestones_after_calls self control calls h s c :
  Forall (fun call : Z * Z => call.2 <> 0) calls ->
  milestones self h = Some (Some s) ->
  controls h !! control = Some c ->
  exists bs h' s',
    step_decisions self control calls h = Ok bs h'
    /\ milestones self h' = Some (Some s')
    /\ s' = list_to_set (percents calls) ∪ s
    /\ (size s' = size s + length (filter (fun b : bool => b = true) bs))%nat
    /\ (forall x, x ∈ s' -> x ∈ s \/ exists k, x = 100 * k).
Proof.
  intros Hall Hm Hc.
  destruct (step_decisions_each self control calls h s c Hall Hm Hc)
    as (bs & h' & E & Hm' & _ & Hsize & _).
  exists bs, h', (list_to_set (percents calls) ∪ s).
  split; [exact E|]. split; [exact Hm'|]. split; [reflexivity|].
  split; [exact Hsize|].
  intros x Hx. apply elem_of_union in Hx as [Hx|Hx]; [right|by left].
  apply elem_of_list_to_set in Hx. unfold percents in Hx.
  apply list_elem_of_fmap in Hx as [[cs ts] [-> _]].
  exists (cs / ts). reflexivity.
Qed.

Lemma milestones_after_calls_witness :
  Forall (fun call : Z * Z => call.2 <> 0) [(3, 3); (4, 3); (6, 3)]
  /\ milestones 1%positive heap_seeded = Some (Some {[ 0 ]})
  /\ controls heap_seeded !! 1%positive = Some control0
  /\ exists bs h' s',
       step_decisions 1%positive 1%positive [(3, 3); (4, 3); (6, 3)] heap_seeded
       = Ok bs h'
       /\ milestones 1%positive h' = Some (Some s')
       /\ s' = list_to_set [100; 100; 200] ∪ {[ 0 ]}.
Proof.
  assert (Hall : Forall (fun call : Z * Z => call.2 <> 0) [(3, 3); (4, 3); (6, 3)])
    by (repeat constructor; simpl; lia).
  split; [exact Hall|]. split; [reflexivity|]. split; [reflexivity|].
  destruct (milestones_after_calls 1%positive 1%positive
              [(3, 3); (4, 3); (6, 3)] heap_seeded {[ 0 ]} control0
              Hall eq_refl eq_refl) as (bs & h' & s' & E & Hm & Hs & _).
  exists bs, h', s'. split; [exact E|]. split; [exact Hm|exact Hs].
Defined.

(** X3: While training runs, the step is below the total.  Every call with
    [0 <= global_step < max_steps] computes the percent 0, so a callback
    whose set holds 0 decides [false] on all of them and its set stays as it
    is: the evaluation is never requested before the last step. *)
Theorem no_evaluation_before_the_end self control calls h s c :
  Forall (fun call : Z * Z => 0 <= call.1 < call.2) calls ->
  milestones self h = Some (Some s) ->
  controls h !! control = Some c ->
  0 ∈ s ->
  exists bs h',
    step_decisions self control calls h = Ok bs h'
    /\ bs = replicate (length calls) false
    /\ milestones self h' = Some (Some s).
Proof.
  intros Hrange Hm Hc Hzero.
  assert (Hall : Forall (fun call : Z * Z => call.2 <> 0) calls).
  { eapply Forall_impl; [exact Hrange|]. simpl. intros; lia. }
  assert (Hps : forall p, p ∈ percents calls -> p = 0).
  { intros p Hp. unfold percents in Hp.
    apply list_elem_of_fmap in Hp as [[cs ts] [-> Hin]].
    rewrite Forall_forall in Hrange. specialize (Hrange _ Hin). simpl in *.
    unfold int. rewrite Z.div_small by lia. reflexivity. }
  destruct (step_decisions_each self control calls h s c Hall Hm Hc)
    as (bs & h' & E & Hm' & Hlen & _ & Heach).
  exists bs, h'. split; [exact E|]. split.
  - apply list_eq. intros j.
    destruct (decide (j < length calls)%nat) as [Hlt|Hge].
    + rewrite lookup_replicate_2 by exact Hlt.
      assert (Hj : (j < length (percents calls))%nat)
        by (unfold percents; by rewrite length_map).
      apply lookup_lt_is_Some in Hj as [p Hp].
      rewrite (Heach j p Hp). f_equal. apply bool_decide_eq_false_2.
      intros [Hnot _]. apply Hnot.
      rewrite (Hps p); [exact Hzero|]. eapply list_elem_of_lookup_2. exact Hp.
    + rewrite lookup_ge_None_2 by lia. symmetry.
      apply lookup_ge_None_2. rewrite length_replicate. lia.
  - rewrite Hm'. do 2 f_equal. apply leibniz_equiv. intros x.
    rewrite elem_of_union, elem_of_list_to_set. split; [|tauto].
    intros [Hx|Hx]; [|exact Hx]. by rewrite (Hps x Hx).
Qed.

Lemma no_evaluation_before_the_end_witness :
  Forall (fun call : Z * Z => 0 <= call.1 < call.2) [(0, 3); (1, 3); (2, 3)]
  /\ milestones 1%positive heap_seeded = Some (Some {[ 0 ]})
  /\ controls heap_seeded !! 1%positive = Some control0
  /\ 0 ∈ ({[ 0 ]} : gset Z)
  /\ exists bs h',
       step_decisions 1%positive 1%positive [(0, 3); (1, 3); (2, 3)] heap_seeded
       = Ok bs h'
       /\ bs = [false; false; false]
       /\ milestones 1%positive h' = Some (Some {[ 0 ]}).
Proof.
  assert (Hrange : Forall (fun call : Z * Z => 0 <= call.1 < call.2)
                          [(0, 3); (1, 3); (2, 3)])
    by (repeat constructor; simpl; lia).
  assert (Hzero : 0 ∈ ({[ 0 ]} : gset Z)) by (by apply elem_of_singleton).
  split; [exact Hrange|]. split; [reflexivity|]. split; [reflexivity|].
  split; [exact Hzero|].
  exact (no_evaluation_before_the_end 1%positive 1%positive
           [(0, 3); (1, 3); (2, 3)] heap_seeded {[ 0 ]} control0
           Hrange eq_refl eq_refl Hzero).
Defined.

(** X4: On a callback as the constructor leaves it, [on_step_begin] never
    returns, whatever the state and the control: it raises
    [ZeroDivisionError] when [max_steps] is 0 and [AttributeError] for
    [steps_done] otherwise, and the heap is as it was after construction. *)
Theorem constructed_callback_never_returns h state control :
  exists self h',
    construct h = Ok self h'
    /\ on_step_begin self state control h'
       = Raise (if max_steps state =? 0 then ZeroDivisionError
                else AttributeError "steps_done") h'.
Proof.
  eexists _, _. split; [reflexivity|].
  unfold on_step_begin, bind.
  destruct (Z.eqb_spec (max_steps state) 0) as [E|Hne].
  - by rewrite percent_of_zero.
  - rewrite percent_of_nonzero by exact Hne.
    unfold get_steps_done. simpl. rewrite lookup_insert_eq. reflexivity.
Qed.

(** X5: What [on_step_begin] leaves alone.  When it returns, it returns the
    reference it was given; no other callback and no other control has
    changed; the control has kept every field but [should_evaluate]; and the
    set of the callback has lost no element.  When it raises, the heap is
    unchanged. *)
Theorem on_step_begin_footprint self state control h :
  match on_step_begin self state control h with
  | Ok returned h' =>
      returned = control
      /\ (forall other, other <> self -> callbacks h' !! other = callbacks h !! other)
      /\ (forall other, other <> control -> controls h' !! other = controls h !! other)
      /\ (forall c, controls h !! control = Some c ->
          exists c', controls h' !! control = Some c'
                     /\ should_training_stop c' = should_training_stop c
                     /\ should_epoch_stop c' = should_epoch_stop c
                     /\ should_save c' = should_save c
                     /\ should_log c' = should_log c)
      /\ (forall s, milestones self h = Some (Some s) ->
          exists s', milestones self h' = Some (Some s') /\ s ⊆ s')
  | Raise _ h' => h' = h
  | Stuck => True
  end.
Proof.
  unfold on_step_begin, bind.
  destruct (Z.eqb_spec (max_steps state) 0) as [E|Hne].
  { by rewrite percent_of_zero. }
  rewrite percent_of_nonzero by exact Hne.
  set (p := 100 * (global_step state / max_steps state)).
  unfold get_steps_done.
  destruct (callbacks h !! self) as [[[s|]]|] eqn:Hself; cbn [steps_done];
    [|reflexivity|exact I].
  destruct (decide (p ∈ s)) as [Hin|Hnin].
  - rewrite bool_decide_eq_true_2 by done. simpl.
    split; [reflexivity|]. split; [reflexivity|]. split; [reflexivity|]. split.
    + intros c Hc. exists c. by repeat split.
    + intros s0 Hs0. exists s0. by split.
  - rewrite bool_decide_eq_false_2 by done. simpl.
    unfold steps_done_add, bind, get_steps_done. rewrite Hself.
    unfold set_should_evaluate. simpl.
    destruct (controls h !! control) as [c|] eqn:Hc; [|exact I]. simpl.
    split; [reflexivity|]. split.
    { intros other Hother. apply lookup_insert_ne. congruence. }
    split.
    { intros other Hother. apply lookup_insert_ne. congruence. }
    split.
    + intros c0 [= <-]. exists (with_should_evaluate true c).
      split; [apply lookup_insert_eq|]. by repeat split.
    + intros s0 Hs0. unfold milestones in Hs0. rewrite Hself in Hs0.
      injection Hs0 as <-. exists ({[ p ]} ∪ s).
      split; [apply milestones_insert|]. apply union_subseteq_r.
Qed.

(** * Properties of [__post_init__] and [prepare_columns] *)

Section FrameFacts.
Context `{Pandas} `{Countable DataFrame} `{!Infinite DataFrame}.
Import Frames.



Lemma labels_frame_set_new (fr : frame) c s :
  c ∉ labels fr -> labels (frame_set fr c s) = labels fr ++ [c].
Proof.
  unfold labels. induction fr as [|[c' s'] rest IH]; simpl; intros Hnin.
  - reflexivity.
  - apply not_elem_of_cons in Hnin as [Hne Hnin].
    destruct (decide (c' = c)); [congruence|]. simpl. f_equal. by apply IH.
Qed.

Lemma labels_frame_set_old (fr : frame) c s :
  c ∈ labels fr -> labels (frame_set fr c s) = labels fr.
Proof.
  unfold labels. induction fr as [|[c' s'] rest IH]; simpl; intros Hin.
  - by apply elem_of_nil in Hin.
  - destruct (decide (c' = c)); [reflexivity|]. simpl.
    apply elem_of_cons in Hin as [Heq|Hin]; [congruence|]. f_equal. by apply IH.
Qed.

Lemma frame_get_frame_set_eq (fr : frame) c s :
  frame_get (frame_set fr c s) c = Some s.
Proof.
  induction fr as [|[c' s'] rest IH]; simpl.
  - by rewrite decide_True.
  - destruct (decide (c' = c)) as [->|Hne]; simpl.
    + by rewrite decide_True.
    + by rewrite decide_False.
Qed.



Lemma labels_filter (fr : frame) (columns : list (option string)) :
  labels (filter (fun col : string * Series => Some col.1 ∉ columns) fr)
  = filter (fun c : string => Some c ∉ columns) (labels fr).
Proof.
  induction fr as [|[c s] rest IH]; [reflexivity|].
  change (labels ((c, s) :: rest)) with (c :: labels rest).
  destruct (decide (Some c ∉ columns)) as [Hkeep|Hdrop].
  - rewrite (filter_cons_True _ (c, s)) by exact Hkeep.
    rewrite (filter_cons_True _ c) by exact Hkeep.
    change (labels ((c, s) :: ?l)) with (c :: labels l). f_equal. exact IH.
  - rewrite (filter_cons_False _ (c, s)) by exact Hdrop.
    rewrite (filter_cons_False _ c) by exact Hdrop. exact IH.
Qed.

Lemma frame_get_filter (fr : frame) (columns : list (option string)) c :
  Some c ∉ columns ->
  frame_get (filter (fun col : string * Series => Some col.1 ∉ columns) fr) c
  = frame_get fr c.
Proof.
  intros Hc. induction fr as [|[c0 s0] rest IH]; [reflexivity|].
  destruct (decide (Some c0 ∉ columns)) as [Hkeep|Hdrop].
  - rewrite (filter_cons_True _ (c0, s0)) by exact Hkeep. simpl.
    destruct (decide (c0 = c)); [reflexivity|exact IH].
  - rewrite (filter_cons_False _ (c0, s0)) by exact Hdrop. simpl.
    destruct (decide (c0 = c)) as [->|]; [contradiction|exact IH].
Qed.

End FrameFacts.

(** ** [__post_init__] *)

Section PostInit.
Context `{Pandas} `{Countable DataFrame} `{!Infinite DataFrame}.
Import Frames.

Lemma column_in_eval (st : gmap DataFrame frame) df fr column :
  st !! df = Some fr -> column_in column df st = Returns (has_column fr column) st.
Proof. intros Hdf. unfold column_in. rewrite Hdf. reflexivity. Qed.

Lemma has_column_Some (fr : frame) c :
  has_column fr (Some c) = true <-> c ∈ labels fr.
Proof. simpl. apply bool_decide_eq_true. Qed.

Lemma reserved_check_cons train valid r rest (st : gmap DataFrame frame) frames :
  supplied train valid st = Some frames ->
  ReservedColumns.check train valid (r :: rest) st
  = if existsb (fun fr => has_column fr (Some r)) frames
    then Raises (ValueError (r ++ " is a reserved column name")) st
    else ReservedColumns.check train valid rest st.
Proof.
  unfold supplied. destruct (st !! train) as [tf|] eqn:Ht; [|discriminate].
  destruct valid as [v|].
  - destruct (st !! v) as [vf|] eqn:Hv; [|discriminate]. intros [= <-].
    cbn [ReservedColumns.check existsb]. unfold then_, column_in. rewrite Ht.
    destruct (has_column tf (Some r)); [reflexivity|]. rewrite Hv.
    destruct (has_column vf (Some r)); reflexivity.
  - intros [= <-].
    cbn [ReservedColumns.check existsb]. unfold then_, column_in. rewrite Ht.
    destruct (has_column tf (Some r)); reflexivity.
Qed.

(** The loop over the reserved names either passes, when no supplied frame
    has a reserved column, or reports a reserved name that a frame has. *)
Lemma reserved_check_outcome train valid reserved (st : gmap DataFrame frame) frames :
  supplied train valid st = Some frames ->
  (ReservedColumns.check train valid reserved st = Returns tt st
   /\ Forall (fun r => Forall (fun fr => r ∉ labels fr) frames) reserved)
  \/ (exists r,
        r ∈ reserved
        /\ Exists (fun fr => r ∈ labels fr) frames
        /\ ReservedColumns.check train valid reserved st
           = Raises (ValueError (r ++ " is a reserved column name")) st).
Proof.
  intros Hframes. induction reserved as [|r rest IH].
  - left. split; [reflexivity|constructor].
  - rewrite (reserved_check_cons train valid r rest st frames Hframes).
    destruct (existsb (fun fr => has_column fr (Some r)) frames) eqn:Hex.
    + right. exists r. split; [apply list_elem_of_here|]. split; [|reflexivity].
      apply existsb_exists in Hex as (fr & Hin & Hhas).
      apply Exists_exists. exists fr. split; [by apply list_elem_of_In|].
      by apply has_column_Some.
    + assert (Hnone : Forall (fun fr => r ∉ labels fr) frames).
      { apply Forall_forall. intros fr Hin Hlab.
        assert (existsb (fun fr => has_column fr (Some r)) frames = true);
          [|congruence].
        apply existsb_exists. exists fr. split; [by apply list_elem_of_In|].
        by apply has_column_Some. }
      destruct IH as [[E Hall]|(r' & Hin & Hex' & E)].
      * left. split; [exact E|]. by constructor.
      * right. exists r'. split; [by apply list_elem_of_further|]. by split.
Qed.

Lemma has_column_false (fr : frame) c :
  has_column fr (Some c) = false <-> c ∉ labels fr.
Proof. simpl. apply bool_decide_eq_false. Qed.

(** The checks of the two required columns, on the supplied frames. *)
Lemma binary_post_init_eval
    (self : TextBinaryClassificationPreprocessor.t)
    (st : gmap DataFrame frame) frames :
  let text := TextBinaryClassificationPreprocessor.text_column self in
  let label := TextBinaryClassificationPreprocessor.label_column self in
  let train := TextBinaryClassificationPreprocessor.train_data self in
  let valid := TextBinaryClassificationPreprocessor.valid_data self in
  supplied train valid st = Some frames ->
  (Forall (fun fr => text ∈ labels fr /\ label ∈ labels fr) frames
   /\ Binary.__post_init__ self st
      = ReservedColumns.check train valid RESERVED_COLUMNS st)
  \/ (exists column place fr,
        (column = text \/ column = label)
        /\ fr ∈ frames /\ (column ∉ labels fr)
        /\ Binary.__post_init__ self st
           = Raises (ValueError (column ++ " not in " ++ place ++ " data")) st).
Proof.
  intros text label train valid. unfold supplied.
  destruct (st !! train) as [tf|] eqn:Ht; [|discriminate].
  remember (Binary.__post_init__ self st) as outcome eqn:E.
  unfold Binary.__post_init__ in E. fold text label train valid in E.
  unfold then_ at 1 in E. rewrite (column_in_eval st train tf _ Ht) in E.
  intros Hframes.
  assert (Hhere : tf ∈ frames).
  { destruct valid as [v|]; [destruct (st !! v) as [vf|]; [|discriminate]|];
      injection Hframes as <-; apply list_elem_of_here. }
  destruct (has_column tf (Some text)) eqn:Htext; simpl in E.
  2:{ right. exists text, "train", tf. apply has_column_false in Htext.
      split; [by left|]. by repeat split. }
  unfold then_ at 1 in E. rewrite (column_in_eval st train tf _ Ht) in E.
  destruct (has_column tf (Some label)) eqn:Hlabel; simpl in E.
  2:{ right. exists label, "train", tf. apply has_column_false in Hlabel.
      split; [by right|]. by repeat split. }
  apply has_column_Some in Htext, Hlabel.
  destruct valid as [v|].
  - destruct (st !! v) as [vf|] eqn:Hv; [|discriminate].
    injection Hframes as <-.
    assert (Hvin : vf ∈ [tf; vf])
      by (apply list_elem_of_further, list_elem_of_here).
    unfold then_ at 1 in E. unfold then_ at 1 in E.
    rewrite (column_in_eval st v vf _ Hv) in E.
    destruct (has_column vf (Some text)) eqn:Hvtext; simpl in E.
    2:{ right. exists text, "valid", vf. apply has_column_false in Hvtext.
        split; [by left|]. by repeat split. }
    unfold then_ at 1 in E. rewrite (column_in_eval st v vf _ Hv) in E.
    destruct (has_column vf (Some label)) eqn:Hvlabel; simpl in E.
    2:{ right. exists label, "valid", vf. apply has_column_false in Hvlabel.
        split; [by right|]. by repeat split. }
    apply has_column_Some in Hvtext, Hvlabel.
    left. split; [|exact E]. repeat constructor; assumption.
  - injection Hframes as <-. left. split; [|exact E].
    repeat constructor; assumption.
Qed.

(** The same checks in [LLMPreprocessor.__post_init__], after the conflict
    test and the assignment of the two columns. *)
Lemma llm_required_eval (c1 c2 : option string) train valid
    (k checks : P LLMPreprocessor.t) (st : gmap DataFrame frame) frames :
  supplied train valid st = Some frames ->
  checks = (
    do! found := column_in c1 train in
    if negb found then throw (ValueError (str_ c1 ++ " not in train data")) else
    do! found := column_in c2 train in
    if negb found then throw (ValueError (str_ c2 ++ " not in train data")) else
    do! _ :=
      match valid with
      | Some valid =>
          do! found := column_in c1 valid in
          if negb found then throw (ValueError (str_ c1 ++ " not in valid data")) else
          do! found := column_in c2 valid in
          if negb found then throw (ValueError (str_ c2 ++ " not in valid data")) else
          unit_ tt
      | None => unit_ tt
      end in
    k) ->
  (Forall (fun fr => has_column fr c1 = true /\ has_column fr c2 = true) frames
   /\ checks st = k st)
  \/ (exists column place fr,
        (column = c1 \/ column = c2)
        /\ fr ∈ frames /\ has_column fr column = false
        /\ checks st
           = Raises (ValueError (str_ column ++ " not in " ++ place ++ " data")) st).
Proof.
  unfold supplied.
  destruct (st !! train) as [tf|] eqn:Ht; [|discriminate].
  intros Hframes Hchecks.
  pose proof (f_equal (fun m => m st) Hchecks) as E. clear Hchecks.
  cbv beta in E.
  assert (Hhere : tf ∈ frames).
  { destruct valid as [v|]; [destruct (st !! v) as [vf|]; [|discriminate]|];
      injection Hframes as <-; apply list_elem_of_here. }
  unfold then_ at 1 in E. rewrite (column_in_eval st train tf _ Ht) in E.
  destruct (has_column tf c1) eqn:H1; cbn [negb] in E.
  2:{ right. exists c1, "train", tf. split; [by left|]. by repeat split. }
  unfold then_ at 1 in E. rewrite (column_in_eval st train tf _ Ht) in E.
  destruct (has_column tf c2) eqn:H2; cbn [negb] in E.
  2:{ right. exists c2, "train", tf. split; [by right|]. by repeat split. }
  destruct valid as [v|].
  - destruct (st !! v) as [vf|] eqn:Hv; [|discriminate].
    injection Hframes as <-.
    assert (Hvin : vf ∈ [tf; vf])
      by (apply list_elem_of_further, list_elem_of_here).
    unfold then_ at 1 in E. unfold then_ at 1 in E.
    rewrite (column_in_eval st v vf _ Hv) in E.
    destruct (has_column vf c1) eqn:Hv1; cbn [negb] in E.
    2:{ right. exists c1, "valid", vf. split; [by left|]. by repeat split. }
    unfold then_ at 1 in E. rewrite (column_in_eval st v vf _ Hv) in E.
    destruct (has_column vf c2) eqn:Hv2; cbn [negb] in E.
    2:{ right. exists c2, "valid", vf. split; [by right|]. by repeat split. }
    left. split; [|exact E]. repeat constructor; assumption.
  - injection Hframes as <-. left. split; [|exact E].
    repeat constructor; assumption.
Qed.

(** X6: [TextBinaryClassificationPreprocessor.__post_init__] accepts exactly
    when every supplied frame has the text and the label column and no
    supplied frame has a reserved column.  Otherwise it raises a [ValueError]
    that names a required column missing from a supplied frame, or a
    reserved name that is a column of one.  The store is left as it was. *)
Theorem binary_post_init_outcome
    (self : TextBinaryClassificationPreprocessor.t)
    (st : gmap DataFrame frame) frames :
  supplied (TextBinaryClassificationPreprocessor.train_data self)
           (TextBinaryClassificationPreprocessor.valid_data self) st
  = Some frames ->
  let text := TextBinaryClassificationPreprocessor.text_column self in
  let label := TextBinaryClassificationPreprocessor.label_column self in
  let accepted :=
    Forall (fun fr => text ∈ labels fr /\ label ∈ labels fr) frames
    /\ Forall (fun r => Forall (fun fr => r ∉ labels fr) frames) RESERVED_COLUMNS in
  (Binary.__post_init__ self st = Returns tt st <-> accepted)
  /\ (accepted
      \/ (exists column place fr,
            (column = text \/ column = label)
            /\ fr ∈ frames /\ (column ∉ labels fr)
            /\ Binary.__post_init__ self st
               = Raises (ValueError (column ++ " not in " ++ place ++ " data")) st)
      \/ (exists r,
            r ∈ RESERVED_COLUMNS
            /\ Exists (fun fr => r ∈ labels fr) frames
            /\ Binary.__post_init__ self st
               = Raises (ValueError (r ++ " is a reserved column name")) st)).
Proof.
  intros Hs text label accepted.
  destruct (binary_post_init_eval self st frames Hs)
    as [[Hreq E]|(column & place & fr & Hcol & Hin & Hno & E)].
  - destruct (reserved_check_outcome _ _ RESERVED_COLUMNS st frames Hs)
      as [[E' Hclean]|(r & Hr & Hex & E')]; rewrite E' in E.
    + split; [|left; by split]. split; [intros _; by split | intros _; exact E].
    + split.
      * rewrite E. split; [discriminate|]. intros [_ Hclean]. exfalso.
        rewrite Forall_forall in Hclean. specialize (Hclean r Hr).
        apply Exists_exists in Hex as (fr & Hin & Hlab).
        rewrite Forall_forall in Hclean. exact (Hclean fr Hin Hlab).
      * right. right. exists r. by repeat split.
  - split.
    + rewrite E. split; [discriminate|]. intros [Hall _]. exfalso.
      rewrite Forall_forall in Hall. specialize (Hall fr Hin).
      destruct Hcol as [->| ->]; tauto.
    + right. left. exists column, place, fr. by repeat split.
Qed.

(** X7: A text or label column with a reserved name is always refused: the
    training frame would have to have the column and not to have it. *)
Theorem binary_reserved_name_refused
    (self : TextBinaryClassificationPreprocessor.t)
    (st : gmap DataFrame frame) frames :
  supplied (TextBinaryClassificationPreprocessor.train_data self)
           (TextBinaryClassificationPreprocessor.valid_data self) st
  = Some frames ->
  TextBinaryClassificationPreprocessor.text_column self ∈ RESERVED_COLUMNS
  \/ TextBinaryClassificationPreprocessor.label_column self ∈ RESERVED_COLUMNS ->
  exists msg, Binary.__post_init__ self st = Raises (ValueError msg) st.
Proof.
  intros Hs Hres.
  destruct (binary_post_init_eval self st frames Hs)
    as [[Hreq E]|(column & place & fr & Hcol & Hin & Hno & E)]; [|eauto].
  destruct (reserved_check_outcome _ _ RESERVED_COLUMNS st frames Hs)
    as [[E' Hclean]|(r & Hr & Hex & E')]; rewrite E' in E; [|eauto].
  exfalso.
  assert (exists tf, tf ∈ frames) as [tf Htf].
  { unfold supplied in Hs.
    destruct (st !! _) as [tf|]; [|discriminate]. exists tf.
    destruct (TextBinaryClassificationPreprocessor.valid_data self) as [v|];
      [destruct (st !! v); [|discriminate]|];
      injection Hs as <-; apply list_elem_of_here. }
  rewrite Forall_forall in Hreq. destruct (Hreq tf Htf) as [Htext Hlabel].
  rewrite Forall_forall in Hclean.
  destruct Hres as [Hres|Hres]; specialize (Hclean _ Hres);
    rewrite Forall_forall in Hclean; exact (Hclean tf Htf ltac:(assumption)).
Qed.

(** X8: [LLMPreprocessor.__post_init__] with [text_column] and one of the other
    two columns raises before it looks at any frame, whatever the store
    holds. *)
Theorem llm_post_init_conflict (self : LLMPreprocessor.t) (st : gmap DataFrame frame) :
  LLMPreprocessor.text_column self <> None ->
  LLMPreprocessor.prompt_column self <> None
  \/ LLMPreprocessor.rejected_text_column self <> None ->
  LLM.__post_init__ self st
  = Raises (ValueError
      "Please provide either text_column or prompt_column and rejected_text_column")
      st.
Proof.
  intros Htext Hother. unfold LLM.__post_init__.
  rewrite (bool_decide_eq_true_2 _ Htext).
  destruct Hother as [Hp|Hr].
  - rewrite (bool_decide_eq_true_2 _ Hp). reflexivity.
  - rewrite (bool_decide_eq_true_2 _ Hr). rewrite orb_true_r. reflexivity.
Qed.

(** X9: With [text_column = c] alone, [__post_init__] accepts exactly when every
    supplied frame has the column [c] and none has one of the six reserved
    columns; the object it leaves has [prompt_column] and
    [rejected_text_column] set to [c] and its other fields unchanged.
    Otherwise it raises a [ValueError]; the store is left as it was. *)
Theorem llm_post_init_text_mode
    (self : LLMPreprocessor.t) c (st : gmap DataFrame frame) frames :
  LLMPreprocessor.text_column self = Some c ->
  LLMPreprocessor.prompt_column self = None ->
  LLMPreprocessor.rejected_text_column self = None ->
  supplied (LLMPreprocessor.train_data self) (LLMPreprocessor.valid_data self) st
  = Some frames ->
  let self' :=
    LLMPreprocessor.mk
      (LLMPreprocessor.train_data self) (LLMPreprocessor.username self)
      (LLMPreprocessor.project_name self) (LLMPreprocessor.token self)
      (LLMPreprocessor.valid_data self) (LLMPreprocessor.test_size self)
      (LLMPreprocessor.seed self) (Some c) (Some c) (Some c) in
  let accepted :=
    Forall (fun fr => c ∈ labels fr) frames
    /\ Forall (fun r => Forall (fun fr => r ∉ labels fr) frames)
              (RESERVED_COLUMNS ++ LLM_RESERVED_COLUMNS) in
  (LLM.__post_init__ self st = Returns self' st <-> accepted)
  /\ (accepted \/ exists msg, LLM.__post_init__ self st = Raises (ValueError msg) st).
Proof.
  intros Htext Hprompt Hrej Hs self' accepted.
  set (k := (do! _ := ReservedColumns.check (LLMPreprocessor.train_data self)
                        (LLMPreprocessor.valid_data self)
                        (RESERVED_COLUMNS ++ LLM_RESERVED_COLUMNS) in
             unit_ self') : P LLMPreprocessor.t).
  destruct (llm_required_eval (Some c) (Some c) _ _ k (LLM.__post_init__ self)
              st frames Hs)
    as [[Hreq E]|(column & place & fr & Hcol & Hin & Hno & E)].
  { unfold LLM.__post_init__. rewrite Htext, Hprompt, Hrej.
    rewrite (bool_decide_eq_true_2 (Some c <> None)) by done.
    rewrite (bool_decide_eq_false_2 (None <> None)) by (intros Hn; by apply Hn).
    reflexivity. }
  - unfold k, then_ in E.
    destruct (reserved_check_outcome _ _ (RESERVED_COLUMNS ++ LLM_RESERVED_COLUMNS)
                st frames Hs) as [[E' Hclean]|(r & Hr & Hex & E')];
      rewrite E' in E.
    + assert (Hacc : accepted).
      { split; [|exact Hclean]. eapply Forall_impl; [exact Hreq|].
        intros fr [Hc _]. by apply has_column_Some. }
      split; [|by left]. split; [intros _; exact Hacc | intros _; exact E].
    + split; [|right; eauto].
      rewrite E. split; [discriminate|]. intros [_ Hclean]. exfalso.
      rewrite Forall_forall in Hclean. specialize (Hclean r Hr).
      apply Exists_exists in Hex as (fr & Hin & Hlab).
      rewrite Forall_forall in Hclean. exact (Hclean fr Hin Hlab).
  - split; [|right; eauto].
    rewrite E. split; [discriminate|]. intros [Hall _]. exfalso.
    rewrite Forall_forall in Hall. specialize (Hall fr Hin).
    apply has_column_Some in Hall. destruct Hcol as [->| ->]; congruence.
Qed.

(** X10: Without [text_column], [__post_init__] accepts exactly when
    [prompt_column] and [rejected_text_column] are both given and are columns
    of every supplied frame, and no supplied frame has one of the six
    reserved columns; the object is left as it was.  Otherwise it raises a
    [ValueError]. *)
Theorem llm_post_init_pair_mode
    (self : LLMPreprocessor.t) (st : gmap DataFrame frame) frames :
  LLMPreprocessor.text_column self = None ->
  supplied (LLMPreprocessor.train_data self) (LLMPreprocessor.valid_data self) st
  = Some frames ->
  let accepted :=
    (exists p r,
       LLMPreprocessor.prompt_column self = Some p
       /\ LLMPreprocessor.rejected_text_column self = Some r
       /\ Forall (fun fr => p ∈ labels fr /\ r ∈ labels fr) frames)
    /\ Forall (fun r => Forall (fun fr => r ∉ labels fr) frames)
              (RESERVED_COLUMNS ++ LLM_RESERVED_COLUMNS) in
  (LLM.__post_init__ self st = Returns self st <-> accepted)
  /\ (accepted \/ exists msg, LLM.__post_init__ self st = Raises (ValueError msg) st).
Proof.
  intros Htext Hs accepted.
  assert (Htf : exists tf, tf ∈ frames).
  { unfold supplied in Hs.
    destruct (st !! _) as [tf|]; [|discriminate]. exists tf.
    destruct (LLMPreprocessor.valid_data self) as [v|];
      [destruct (st !! v); [|discriminate]|];
      injection Hs as <-; apply list_elem_of_here. }
  set (k := (do! _ := ReservedColumns.check (LLMPreprocessor.train_data self)
                        (LLMPreprocessor.valid_data self)
                        (RESERVED_COLUMNS ++ LLM_RESERVED_COLUMNS) in
             unit_ self) : P LLMPreprocessor.t).
  destruct (llm_required_eval (LLMPreprocessor.prompt_column self)
              (LLMPreprocessor.rejected_text_column self) _ _ k
              (LLM.__post_init__ self) st frames Hs)
    as [[Hreq E]|(column & place & fr & Hcol & Hin & Hno & E)].
  { unfold LLM.__post_init__. rewrite Htext.
    rewrite (bool_decide_eq_false_2 (None <> None)) by (intros Hn; by apply Hn).
    reflexivity. }
  - assert (Hboth : exists p r,
       LLMPreprocessor.prompt_column self = Some p
       /\ LLMPreprocessor.rejected_text_column self = Some r
       /\ Forall (fun fr => p ∈ labels fr /\ r ∈ labels fr) frames).
    { destruct Htf as [tf Htf]. rewrite Forall_forall in Hreq.
      destruct (Hreq tf Htf) as [Hp Hr].
      destruct (LLMPreprocessor.prompt_column self) as [p|]; [|discriminate].
      destruct (LLMPreprocessor.rejected_text_column self) as [r|]; [|discriminate].
      exists p, r. split; [reflexivity|]. split; [reflexivity|].
      apply Forall_forall. intros fr Hfr. destruct (Hreq fr Hfr).
      split; by apply has_column_Some. }
    unfold k, then_ in E.
    destruct (reserved_check_outcome _ _ (RESERVED_COLUMNS ++ LLM_RESERVED_COLUMNS)
                st frames Hs) as [[E' Hclean]|(r & Hr & Hex & E')];
      rewrite E' in E.
    + split; [|left; by split]. split; [intros _; by split | intros _; exact E].
    + split; [|right; eauto].
      rewrite E. split; [discriminate|]. intros [_ Hclean]. exfalso.
      rewrite Forall_forall in Hclean. specialize (Hclean r Hr).
      apply Exists_exists in Hex as (fr & Hin & Hlab).
      rewrite Forall_forall in Hclean. exact (Hclean fr Hin Hlab).
  - split; [|right; eauto].
    rewrite E. split; [discriminate|].
    intros [(p & r & Hp & Hr & Hall) _]. exfalso.
    rewrite Forall_forall in Hall. destruct (Hall fr Hin) as [Hpin Hrin].
    apply has_column_Some in Hpin, Hrin.
    destruct Hcol as [->| ->]; congruence.
Qed.

(** X11: An [LLMPreprocessor] built without any of the three columns is refused
    with the message [None not in train data]. *)
Theorem llm_post_init_no_column
    (self : LLMPreprocessor.t) (st : gmap DataFrame frame) :
  LLMPreprocessor.text_column self = None ->
  LLMPreprocessor.prompt_column self = None ->
  is_Some (st !! LLMPreprocessor.train_data self) ->
  LLM.__post_init__ self st = Raises (ValueError "None not in train data") st.
Proof.
  intros Htext Hprompt [tf Ht]. unfold LLM.__post_init__. rewrite Htext.
  rewrite (bool_decide_eq_false_2 (None <> None)) by (intros Hn; by apply Hn).
  cbn [andb]. cbv zeta.
  unfold then_ at 1. rewrite (column_in_eval st _ tf _ Ht). rewrite Hprompt.
  reflexivity.
Qed.

End PostInit.

(** ** [prepare_columns] *)

Section PrepareColumns.
Context `{Pandas} `{Countable DataFrame} `{!Infinite DataFrame}.
Import Frames.
























End PrepareColumns.

(** ** Validation, then preparation *)

Section Validated.
Context `{Pandas} `{Countable DataFrame} `{!Infinite DataFrame}.
Import Frames.



End Validated.

(** ** The sibling class and the samples *)

Section Seq2SeqAgreement.
Context `{Pandas} `{Countable DataFrame} `{!Infinite DataFrame}.

(** X18: [Seq2SeqPreprocessor] repeats the code of the binary class: on objects
    with the same frames, columns, test size and seed, [__post_init__],
    [split] and [prepare_columns] of the two classes do the same. *)
Theorem seq2seq_agrees_with_binary
    (s : Seq2SeqPreprocessor.t) (b : TextBinaryClassificationPreprocessor.t) :
  Seq2SeqPreprocessor.train_data s = TextBinaryClassificationPreprocessor.train_data b ->
  Seq2SeqPreprocessor.valid_data s = TextBinaryClassificationPreprocessor.valid_data b ->
  Seq2SeqPreprocessor.text_column s = TextBinaryClassificationPreprocessor.text_column b ->
  Seq2SeqPreprocessor.label_column s = TextBinaryClassificationPreprocessor.label_column b ->
  Seq2SeqPreprocessor.test_size s = TextBinaryClassificationPreprocessor.test_size b ->
  Seq2SeqPreprocessor.seed s = TextBinaryClassificationPreprocessor.seed b ->
  Seq2Seq.__post_init__ s = Binary.__post_init__ b
  /\ Seq2SeqPreprocessor.split s = TextBinaryClassificationPreprocessor.split b
  /\ (forall train_df valid_df,
        Seq2Seq.prepare_columns s train_df valid_df
        = Binary.prepare_columns b train_df valid_df).
Proof.
  intros Htrain Hvalid Htext Hlabel Hsize Hseed. split; [|split].
  - unfold Seq2Seq.__post_init__, Binary.__post_init__.
    by rewrite Htrain, Hvalid, Htext, Hlabel.
  - unfold Seq2SeqPreprocessor.split, TextBinaryClassificationPreprocessor.split.
    by rewrite Htrain, Hvalid, Hlabel, Hsize, Hseed.
  - intros train_df valid_df.
    unfold Seq2Seq.prepare_columns, Binary.prepare_columns.
    by rewrite Htext, Hlabel.
Qed.

End Seq2SeqAgreement.

Ltac has_label := apply list_elem_of_In; simpl; tauto.
Ltac lacks_label :=
  let Hin := fresh "Hin" in
  intros Hin; apply list_elem_of_In in Hin; simpl in Hin;
  repeat (destruct Hin as [Hin|Hin]; [discriminate Hin|]); exact Hin.

Lemma binary_post_init_outcome_witness :
  Frames.supplied (H := toy_pandas) 7%nat None toy_store = Some [toy_frame]
  /\ Binary.__post_init__ binary_sample toy_store = Frames.Returns tt toy_store.
Proof.
  split; [reflexivity|].
  apply (proj1 (binary_post_init_outcome (H := toy_pandas) binary_sample toy_store
                  [toy_frame] eq_refl)).
  split.
  - repeat constructor; has_label.
  - repeat constructor; lacks_label.
Defined.

Lemma binary_reserved_name_refused_witness :
  Frames.supplied (H := toy_pandas) 7%nat None toy_store = Some [toy_frame]
  /\ "autotrain_text" ∈ RESERVED_COLUMNS
  /\ exists msg,
       Binary.__post_init__ binary_reserved_sample toy_store
       = Frames.Raises (Frames.ValueError msg) toy_store.
Proof.
  assert (Hres : "autotrain_text" ∈ RESERVED_COLUMNS) by has_label.
  split; [reflexivity|]. split; [exact Hres|].
  apply (binary_reserved_name_refused (H := toy_pandas) binary_reserved_sample
           toy_store [toy_frame] eq_refl).
  left. exact Hres.
Defined.

Lemma llm_post_init_conflict_witness :
  LLMPreprocessor.text_column llm_sample <> None
  /\ LLMPreprocessor.prompt_column llm_sample <> None
  /\ LLM.__post_init__ llm_sample toy_store
     = Frames.Raises (Frames.ValueError
         "Please provide either text_column or prompt_column and rejected_text_column")
         toy_store.
Proof.
  assert (Ht : LLMPreprocessor.text_column llm_sample <> None) by discriminate.
  assert (Hp : LLMPreprocessor.prompt_column llm_sample <> None) by discriminate.
  split; [exact Ht|]. split; [exact Hp|].
  apply (llm_post_init_conflict (H := toy_pandas) llm_sample toy_store Ht).
  left. exact Hp.
Defined.

Lemma llm_post_init_text_mode_witness :
  LLMPreprocessor.text_column llm_input = Some "text"
  /\ LLMPreprocessor.prompt_column llm_input = None
  /\ LLMPreprocessor.rejected_text_column llm_input = None
  /\ Frames.supplied (H := toy_pandas) 7%nat None toy_store = Some [toy_frame]
  /\ LLM.__post_init__ llm_input toy_store = Frames.Returns llm_sample toy_store.
Proof.
  split; [reflexivity|]. split; [reflexivity|]. split; [reflexivity|].
  split; [reflexivity|].
  apply (proj1 (llm_post_init_text_mode (H := toy_pandas) llm_input "text" toy_store
                  [toy_frame] eq_refl eq_refl eq_refl eq_refl)).
  split.
  - repeat constructor; has_label.
  - repeat constructor; lacks_label.
Defined.

Lemma llm_post_init_pair_mode_witness :
  LLMPreprocessor.text_column llm_pair_input = None
  /\ Frames.supplied (H := toy_pandas) 7%nat None toy_store = Some [toy_frame]
  /\ LLM.__post_init__ llm_pair_input toy_store
     = Frames.Returns llm_pair_input toy_store.
Proof.
  split; [reflexivity|]. split; [reflexivity|].
  apply (proj1 (llm_post_init_pair_mode (H := toy_pandas) llm_pair_input toy_store
                  [toy_frame] eq_refl eq_refl)).
  split.
  - exists "text", "label". split; [reflexivity|]. split; [reflexivity|].
    repeat constructor; has_label.
  - repeat constructor; lacks_label.
Defined.

Lemma llm_post_init_no_column_witness :
  LLMPreprocessor.text_column llm_empty_input = None
  /\ LLMPreprocessor.prompt_column llm_empty_input = None
  /\ is_Some (toy_store !! LLMPreprocessor.train_data llm_empty_input)
  /\ LLM.__post_init__ llm_empty_input toy_store
     = Frames.Raises (Frames.ValueError "None not in train data") toy_store.
Proof.
  assert (Hs : is_Some (toy_store !! LLMPreprocessor.train_data llm_empty_input))
    by (exists toy_frame; reflexivity).
  split; [reflexivity|]. split; [reflexivity|]. split; [exact Hs|].
  exact (llm_post_init_no_column (H := toy_pandas) llm_empty_input toy_store
           eq_refl eq_refl Hs).
Defined.








Lemma seq2seq_agrees_with_binary_witness :
  Seq2SeqPreprocessor.train_data seq2seq_sample
  = TextBinaryClassificationPreprocessor.train_data binary_sample
  /\ Seq2Seq.__post_init__ seq2seq_sample toy_store
     = Binary.__post_init__ binary_sample toy_store
  /\ Seq2SeqPreprocessor.split seq2seq_sample
     = TextBinaryClassificationPreprocessor.split binary_sample.
Proof.
  destruct (seq2seq_agrees_with_binary (H := toy_pandas) seq2seq_sample binary_sample
              eq_refl eq_refl eq_refl eq_refl eq_refl eq_refl)
    as (Hinit & Hsplit & _).
  split; [reflexivity|]. split; [by rewrite Hinit | exact Hsplit].
Defined.

